(** * Mealplanner: calorie allocation, constraint filtering and dish scoring

  A shallow embedding of [backend/src/calorie_splitter.py],
  [backend/src/dish_filter.py] and the caloric-target arithmetic of
  [backend/src/api.py].

  Python numbers are modelled as they are at run time: [int] as [Z],
  [float] as an IEEE-754 binary64 value ([spec_float] with precision 53
  and maximal exponent 1024, rounding to nearest even), and the built-in
  [round] as rounding half to even on the exact value of the double.
  Exceptions are values of an error monad. *)

From Stdlib Require Import ZArith List String Ascii Bool Lia.
From Stdlib Require Import Sorting.Sorted Sorting.Permutation.
From Stdlib Require Import Floats.SpecFloat.
Import ListNotations.
Open Scope Z_scope.

(** ** Python run-time values and exceptions *)

Module Py.

Inductive exn : Type :=
| ValueError (msg : string)
| OverflowError (msg : string)
| ZeroDivisionError (msg : string).

Inductive result (A : Type) : Type :=
| Ok (a : A)
| Raise (e : exn).
Arguments Ok {A} a.
Arguments Raise {A} e.

Definition bind {A B : Type} (r : result A) (k : A -> result B) : result B :=
  match r with
  | Ok a => k a
  | Raise e => Raise e
  end.

Definition is_ValueError {A : Type} (r : result A) : Prop :=
  exists msg, r = Raise (ValueError msg).

(** The values a caller can hand to [split_calories] as a total. *)
Inductive value : Type :=
| VInt (z : Z)
| VBool (b : bool)
| VFloat (f : spec_float)
| VStr (s : string)
| VNone.

(** A number after the [isinstance(_, (int, float))] test; [bool] is a
    subclass of [int]. *)
Inductive num : Type :=
| NInt (z : Z)
| NFloat (f : spec_float).

Definition as_number (v : value) : option num :=
  match v with
  | VInt z => Some (NInt z)
  | VBool b => Some (NInt (if b then 1 else 0))
  | VFloat f => Some (NFloat f)
  | VStr _ | VNone => None
  end.

End Py.

Notation "x <- c1 ;; c2" := (Py.bind c1 (fun x => c2))
(at level 61, c1 at next level, right associativity).

(** ** Binary64 arithmetic *)

Module F64.
Import Py.

Definition prec : Z := 53.
Definition emax : Z := 1024.

Definition add := SFadd prec emax.
Definition sub := SFsub prec emax.
Definition mul := SFmul prec emax.
Definition div := SFdiv prec emax.
Definition leb := SFleb.
Definition ltb := SFltb.
Definition eqb := SFeqb.

(** The double nearest to an integer (exact below 2^53). *)
Definition of_Z (z : Z) : spec_float := binary_normalize prec emax z 0 false.

(** [float(n)] for an [int]: [PyLong_AsDouble]. *)
Definition of_int (z : Z) : result spec_float :=
  match of_Z z with
  | S754_infinity _ => Raise (OverflowError "int too large to convert to float")
  | f => Ok f
  end.

(** A decimal literal [n/d] with [n] and [d] below 2^53: the correctly
    rounded quotient is the double the Python parser produces. *)
Definition lit (n d : Z) : spec_float := div (of_Z n) (of_Z d).

Definition zero : spec_float := S754_zero false.

(** [a / b] on two [int]s: the correctly rounded quotient. *)
Definition int_truediv (a b : Z) : result spec_float :=
  match b with
  | Z0 => Raise (ZeroDivisionError "division by zero")
  | _ =>
      match a with
      | Z0 => Ok (S754_zero (b <? 0))
      | _ =>
          let '(q, e, l) := SFdiv_core_binary prec emax (Z.abs a) 0 (Z.abs b) 0 in
          match binary_round_aux prec emax (xorb (a <? 0) (b <? 0)) q e l with
          | S754_infinity _ =>
              Raise (OverflowError "integer division result too large for a float")
          | f => Ok f
          end
      end
  end.

(** Rounding half to even of a positive rational [m / 2^k]. *)
Definition round_half_even_pos (m : Z) (k : Z) : Z :=
  let d := 2 ^ k in
  let q := m / d in
  let r := m mod d in
  match Z.compare (2 * r) d with
  | Lt => q
  | Gt => q + 1
  | Eq => if Z.even q then q else q + 1
  end.

(** The built-in [round(x)] on a [float] with no digits argument. *)
Definition round (f : spec_float) : result Z :=
  match f with
  | S754_nan => Raise (ValueError "cannot convert float NaN to integer")
  | S754_infinity _ => Raise (OverflowError "cannot convert float infinity to integer")
  | S754_zero _ => Ok 0
  | S754_finite s m e =>
      let a := if 0 <=? e then Zpos m * 2 ^ e
               else round_half_even_pos (Zpos m) (- e) in
      Ok (if s then - a else a)
  end.

(** [int(x)] on a [float]: truncation toward zero. *)
Definition trunc (f : spec_float) : result Z :=
  match f with
  | S754_nan => Raise (ValueError "cannot convert float NaN to integer")
  | S754_infinity _ => Raise (OverflowError "cannot convert float infinity to integer")
  | S754_zero _ => Ok 0
  | S754_finite s m e =>
      let a := if 0 <=? e then Zpos m * 2 ^ e else Zpos m / 2 ^ (- e) in
      Ok (if s then - a else a)
  end.

(** Mixed arithmetic: an [int] operand is converted with [float(_)]. *)
Definition to_float (a : num) : result spec_float :=
  match a with
  | NInt z => of_int z
  | NFloat f => Ok f
  end.

Definition num_mul_float (a : num) (c : spec_float) : result spec_float :=
  x <- to_float a ;; Ok (mul x c).

Definition num_le_zero (a : num) : bool :=
  match a with
  | NInt z => z <=? 0
  | NFloat f => leb f zero
  end.

Definition num_sub_int (a : num) (z : Z) : result num :=
  match a with
  | NInt t => Ok (NInt (t - z))
  | NFloat f => g <- of_int z ;; Ok (NFloat (sub f g))
  end.

Definition num_truediv_int (a : num) (z : Z) : result spec_float :=
  match a with
  | NInt t => int_truediv t z
  | NFloat f => g <- of_int z ;; Ok (div f g)
  end.

End F64.

(** ** Python string operations

  Strings are byte strings; [lower] maps the ASCII capitals and [strip]
  removes the ASCII white space of [str.isspace], which is what the
  vocabulary of the application (ASCII tags) exercises. *)

Module Str.

Definition lower_ascii (c : ascii) : ascii :=
  let n := nat_of_ascii c in
  if ((65 <=? n)%nat && (n <=? 90)%nat)%bool then ascii_of_nat (n + 32) else c.

Fixpoint lower (s : string) : string :=
  match s with
  | EmptyString => EmptyString
  | String c s' => String (lower_ascii c) (lower s')
  end.

Definition is_space (c : ascii) : bool :=
  let n := nat_of_ascii c in
  ((9 <=? n)%nat && (n <=? 13)%nat) || ((28 <=? n)%nat && (n <=? 32)%nat).

Fixpoint lstrip (s : string) : string :=
  match s with
  | EmptyString => EmptyString
  | String c s' => if is_space c then lstrip s' else s
  end.

(** Drops the trailing white space: the suffix is dropped when what
    follows the head is all white space. *)
Fixpoint rstrip (s : string) : string :=
  match s with
  | EmptyString => EmptyString
  | String c s' =>
      match rstrip s' with
      | EmptyString => if is_space c then EmptyString else String c EmptyString
      | t => String c t
      end
  end.

Definition strip (s : string) : string := rstrip (lstrip s).

(** [s.replace(a, b)] for single characters. *)
Fixpoint replace_char (a b : ascii) (s : string) : string :=
  match s with
  | EmptyString => EmptyString
  | String c s' => String (if Ascii.eqb c a then b else c) (replace_char a b s')
  end.

(** [needle in hay] on strings. *)
Fixpoint contains (needle hay : string) : bool :=
  String.prefix needle hay ||
  match hay with
  | EmptyString => false
  | String _ hay' => contains needle hay'
  end.

Definition truthy (s : string) : bool := negb (String.eqb s EmptyString).

(** [x in xs] for a list of strings. *)
Definition mem (x : string) (xs : list string) : bool :=
  existsb (String.eqb x) xs.

(** [set(xs)]: the distinct elements. *)
Definition to_set (xs : list string) : list string := nodup string_dec xs.

(** [a.intersection(b)] on two sets. *)
Definition inter (a b : list string) : list string :=
  filter (fun x => mem x b) a.

End Str.

(** ** calorie_splitter.py *)

Module CalorieSplitter.
Import Py.

Definition breakfast_pct : spec_float := Eval vm_compute in F64.lit 275 1000.
Definition lunch_pct : spec_float := Eval vm_compute in F64.lit 325 1000.
Definition dinner_pct : spec_float := Eval vm_compute in F64.lit 275 1000.
Definition ten : spec_float := Eval vm_compute in F64.of_Z 10.

(** [round(total_calories * pct / 10) * 10] *)
Definition meal_cal (total : num) (pct : spec_float) : result Z :=
  x <- F64.num_mul_float total pct ;;
  r <- F64.round (F64.div x ten) ;;
  Ok (r * 10).

(** [round(remaining_cal / 2 / 10) * 10] *)
Definition snack_cal_of (remaining : num) : result Z :=
  h <- F64.num_truediv_int remaining 2 ;;
  r <- F64.round (F64.div h ten) ;;
  Ok (r * 10).

Definition is_recognized (meal_frequency : string) : bool :=
  String.eqb meal_frequency "3 meals"
  || String.eqb meal_frequency "3 meals + 2 snacks".

(** The returned dict, in insertion order. *)
Definition distribution := list (string * Z).

Definition split_calories (total_calories : value) (meal_frequency : string)
  : result distribution :=
  match as_number total_calories with
  | None => Raise (ValueError "Total calories must be a positive number")
  | Some total =>
      if F64.num_le_zero total then
        Raise (ValueError "Total calories must be a positive number")
      else if negb (is_recognized meal_frequency) then
        Raise (ValueError
                 "Meal frequency must be either '3 meals' or '3 meals + 2 snacks'")
      else
        breakfast_cal <- meal_cal total breakfast_pct ;;
        lunch_cal <- meal_cal total lunch_pct ;;
        dinner_cal <- meal_cal total dinner_pct ;;
        let calorie_distribution :=
          [("breakfast"%string, breakfast_cal); ("lunch"%string, lunch_cal);
           ("dinner"%string, dinner_cal)] in
        if String.eqb meal_frequency "3 meals + 2 snacks" then
          remaining_cal <-
            F64.num_sub_int total (breakfast_cal + lunch_cal + dinner_cal) ;;
          snack_cal <- snack_cal_of remaining_cal ;;
          Ok (calorie_distribution
                ++ [("snack_1"%string, snack_cal); ("snack_2"%string, snack_cal)])
        else Ok calorie_distribution
  end.

(** [d[key]] on the returned dict. *)
Fixpoint slot (d : distribution) (key : string) : option Z :=
  match d with
  | [] => None
  | (k, v) :: d' => if String.eqb k key then Some v else slot d' key
  end.

Definition total_of (d : distribution) : Z :=
  fold_right (fun kv acc => snd kv + acc) 0 d.

End CalorieSplitter.

(** ** api.py: the caloric target of the [generate_meal_plan] endpoint *)

Module Api.
Import Py.

(** [10 * weight_kg + 6.25 * height_cm - 5 * age], then [+ 5] for
    ["Male"] and [- 161] otherwise. [weight_kg] is a [float] field,
    [height_cm] and [age] are [int] fields of [UserInputData]. *)
Definition calculate_bmr (weight_kg : spec_float) (height_cm age : Z)
           (gender : string) : result spec_float :=
  h <- F64.of_int height_cm ;;
  a <- F64.of_int (5 * age) ;;
  let base_calc :=
    F64.sub (F64.add (F64.mul (F64.of_Z 10) weight_kg)
                     (F64.mul (F64.lit 625 100) h)) a in
  Ok (if String.eqb gender "Male" then F64.add base_calc (F64.of_Z 5)
      else F64.sub base_calc (F64.of_Z 161)).

Definition get_activity_factor (lifestyle_type : string) : spec_float :=
  let lifestyle_lower := Str.lower lifestyle_type in
  if String.eqb lifestyle_lower "sedentary" then F64.lit 12 10
  else if String.eqb lifestyle_lower "active" then F64.lit 155 100
  else if String.eqb lifestyle_lower "elderly" then F64.lit 12 10
  else if String.eqb lifestyle_lower "athletic" then F64.lit 1725 1000
  else F64.lit 12 10.

Definition goal_adjustment (primary_goal : string) : spec_float :=
  if String.eqb primary_goal "Weight Loss" then F64.lit 85 100
  else if String.eqb primary_goal "Muscle Gain" then F64.lit 115 100
  else if String.eqb primary_goal "Maintenance" then F64.of_Z 1
  else if String.eqb primary_goal "Recovery" then F64.lit 11 10
  else F64.of_Z 1.

(** [caloric_intake = round(bmr * activity_factor)] and
    [adjusted_calories = int(caloric_intake * adjustment)]. *)
Definition adjusted_calories (weight_kg : spec_float) (height_cm age : Z)
           (gender lifestyle_type primary_goal : string) : result Z :=
  bmr <- calculate_bmr weight_kg height_cm age gender ;;
  caloric_intake <- F64.round (F64.mul bmr (get_activity_factor lifestyle_type)) ;;
  c <- F64.of_int caloric_intake ;;
  F64.trunc (F64.mul c (goal_adjustment primary_goal)).

(** [categorize_bmi]: the thresholds 18.5, 25 and 30. *)
Definition c18_5 : spec_float := Eval vm_compute in F64.lit 185 10.
Definition c25 : spec_float := Eval vm_compute in F64.of_Z 25.
Definition c30 : spec_float := Eval vm_compute in F64.of_Z 30.

Definition categorize_bmi (bmi : spec_float) : string :=
  if F64.ltb bmi c18_5 then "Underweight"
  else if F64.ltb bmi c25 then "Normal weight"
  else if F64.ltb bmi c30 then "Overweight"
  else "Obese".

End Api.

(** ** dish_filter.py *)

Module DishFilter.
Import Py.

(** A dish record of the catalog; an absent key is [None]
    (the code reads every field with [dish.get(key, default)]). *)
Record Dish : Type := {
  name : string;
  meal_type : option string;
  calories : option Z;
  protein_grams : option Z;
  diet_tags : option (list string);
  allergy_risks : option (list string);
  region : option string;
  attribute_rankings : option (list (string * list (string * Z)));
  time_of_day_suitability : option (list string);
  dish_persona_tags : option (list string)
}.

(** The user dict. [known_allergies] may hold entries that are not
    strings (the code tests [isinstance(allergy, str)]). *)
Record User : Type := {
  weight_kg : option spec_float;
  primary_goal : option string;
  lifestyle_type : option string;
  dietary_strictness : option string;
  flavor_preferences : option string;
  prep_skill_level : option string;
  affordability_preference : option string;
  known_allergies : option (list value);
  preferred_meal_times : option (list string);
  persona_tags : option (list string);
  Region : option string
}.

Definition get {A : Type} (field : option A) (default : A) : A :=
  match field with
  | Some a => a
  | None => default
  end.

Fixpoint lookup {A : Type} (key : string) (d : list (string * A)) : option A :=
  match d with
  | [] => None
  | (k, v) :: d' => if String.eqb k key then Some v else lookup key d'
  end.

(** *** Constants of [__init__] *)

Definition meal_type_mapping : list (string * string) :=
  [("morning", "breakfast"); ("afternoon", "lunch"); ("evening", "dinner");
   ("night", "dinner"); ("snacks", "snack")]%string.

Definition w_attribute_rankings : spec_float := Eval vm_compute in F64.of_Z 1.
Definition w_dietary_match : spec_float := Eval vm_compute in F64.of_Z 2.
Definition w_allergy_penalty : spec_float := Eval vm_compute in F64.of_Z (-10).
Definition w_meal_timing : spec_float := Eval vm_compute in F64.lit 5 10.
Definition w_caloric_alignment : spec_float := Eval vm_compute in F64.lit 3 10.
Definition w_persona_bonus : spec_float := Eval vm_compute in F64.lit 8 10.
Definition w_protein_alignment : spec_float := Eval vm_compute in F64.lit 15 10.
Definition half : spec_float := Eval vm_compute in F64.lit 5 10.

Definition protein_requirements : list (string * spec_float) :=
  Eval vm_compute in
  [("muscle gain", F64.lit 22 10); ("weight loss", F64.lit 16 10);
   ("recovery", F64.lit 18 10); ("cardiac", F64.lit 12 10);
   ("diabetes", F64.lit 12 10); ("maintenance", F64.of_Z 1);
   ("medical therapy", F64.lit 14 10)]%string.

Definition activity_multipliers : list (string * spec_float) :=
  Eval vm_compute in
  [("athletic", F64.lit 12 10); ("active", F64.lit 11 10);
   ("sedentary", F64.of_Z 1); ("elderly", F64.lit 9 10)]%string.

Definition calculate_user_protein_needs (user_data : User) : spec_float :=
  let weight := get (weight_kg user_data) (F64.of_Z 70) in
  let goal :=
    Str.replace_char " " "_"
      (Str.lower (get (primary_goal user_data) "maintenance"%string)) in
  let lifestyle := Str.lower (get (lifestyle_type user_data) "sedentary"%string) in
  let goal := Str.replace_char "_" " " goal in
  let base_protein :=
    F64.mul (get (lookup goal protein_requirements) (F64.of_Z 1)) weight in
  let multiplier := get (lookup lifestyle activity_multipliers) (F64.of_Z 1) in
  F64.mul base_protein multiplier.

Definition _normalize_health_goal (goal : string) : string :=
  let goal_mapping :=
    [("weight_loss", "weight loss"); ("muscle_gain", "muscle gain");
     ("medical_therapy", "medical recovery"); ("cardiac", "cardiac");
     ("diabetes", "diabetes"); ("maintenance", "maintenance");
     ("recovery", "recovery")]%string in
  get (lookup goal goal_mapping) (Str.replace_char "_" " " goal).

Definition normalize_field (is_goal : bool) (dish_key : string)
           (field : option string) : list (string * string) :=
  match field with
  | Some v =>
      if Str.truthy v then
        let value := Str.replace_char " " "_" (Str.lower v) in
        [(dish_key, if is_goal then _normalize_health_goal value else value)]
      else []
  | None => []
  end.

Definition normalize_user_preferences (user_data : User)
  : list (string * string) :=
  normalize_field true "health_suitability" (primary_goal user_data)
  ++ normalize_field false "lifestyle_suitability" (lifestyle_type user_data)
  ++ normalize_field false "dietary_suitability" (dietary_strictness user_data)
  ++ normalize_field false "flavor_profile" (flavor_preferences user_data)
  ++ normalize_field false "prep_complexity" (prep_skill_level user_data)
  ++ normalize_field false "ingredient_affordability"
       (affordability_preference user_data).

(** *** The factors of the score *)

Definition attribute_score (rankings : list (string * list (string * Z)))
           (normalized_prefs : list (string * string)) : Z :=
  fold_left
    (fun acc pref =>
       match lookup (fst pref) rankings with
       | Some table =>
           match lookup (snd pref) table with
           | Some v => acc + v
           | None => acc
           end
       | None => acc
       end)
    normalized_prefs 0.

Definition _calculate_caloric_score (dish : Dish)
           (caloric_rankings : list (string * Z)) : Z :=
  let dish_calories := get (calories dish) 0 in
  let density :=
    if dish_calories <? 200 then "low"%string
    else if 500 <? dish_calories then "high"%string
    else "moderate"%string in
  get (lookup density caloric_rankings) 0.

Definition c08 : spec_float := Eval vm_compute in F64.lit 8 10.
Definition c12 : spec_float := Eval vm_compute in F64.lit 12 10.
Definition c06 : spec_float := Eval vm_compute in F64.lit 6 10.
Definition c14 : spec_float := Eval vm_compute in F64.lit 14 10.
Definition c04 : spec_float := Eval vm_compute in F64.lit 4 10.
Definition c16 : spec_float := Eval vm_compute in F64.lit 16 10.

(** [lo <= x <= hi] on doubles. *)
Definition between (lo x hi : spec_float) : bool :=
  F64.leb lo x && F64.leb x hi.

Definition protein_band (protein_ratio : spec_float) : Z :=
  if between c08 protein_ratio c12 then 3
  else if between c06 protein_ratio c14 then 2
  else if between c04 protein_ratio c16 then 1
  else -1.

Definition _calculate_protein_score (dish : Dish) (target_protein : spec_float)
  : result Z :=
  let dish_protein := get (protein_grams dish) 0 in
  if F64.eqb target_protein F64.zero then Ok 0
  else
    p <- F64.of_int dish_protein ;;
    let protein_ratio := F64.div p target_protein in
    Ok (protein_band protein_ratio).

Definition dietary_conflicts : list (string * list string) :=
  [("vegan", ["non-vegetarian"; "dairy"]);
   ("vegetarian", ["non-vegetarian"]);
   ("diabetic-friendly", ["high-sugar"; "sweet"]);
   ("gluten-free", ["gluten"])]%string.

Definition _calculate_dietary_compatibility (dish : Dish) (user_data : User) : Z :=
  let dish_diet_tags := map Str.lower (get (diet_tags dish) []) in
  let user_dietary := Str.lower (get (dietary_strictness user_data) EmptyString) in
  let score := if Str.mem user_dietary dish_diet_tags then 3 else 0 in
  match lookup user_dietary dietary_conflicts with
  | Some conflicts =>
      if existsb (fun conflict => Str.mem conflict dish_diet_tags) conflicts
      then score - 5 else score
  | None => score
  end.

(** [{a.strip().lower() for a in xs if isinstance(a, str) and a.strip()}] *)
Definition user_allergy_set (xs : list value) : list string :=
  Str.to_set
    (flat_map
       (fun a =>
          match a with
          | VStr s =>
              if Str.truthy (Str.strip s) then [Str.lower (Str.strip s)] else []
          | _ => []
          end)
       xs).

Definition dish_allergen_set (dish : Dish) : list string :=
  Str.to_set (map Str.lower (get (allergy_risks dish) [])).

Definition allergy_conflicts (dish : Dish) (user_data : User) : list string :=
  Str.inter (user_allergy_set (get (known_allergies user_data) []))
            (dish_allergen_set dish).

Definition _calculate_allergy_risk (dish : Dish) (user_data : User) : Z :=
  let conflicts := allergy_conflicts dish user_data in
  match conflicts with
  | [] => 0
  | _ => - Z.of_nat (List.length conflicts)
  end.

(** The list [dish_times] built by the loop, before [set(_)]. *)
Definition timing_matches (user_meal_times dish_suitable_times : list string)
  : list string :=
  flat_map
    (fun time =>
       if Str.mem (Str.lower time) (map fst meal_type_mapping) then
         filter (fun t => Str.contains (Str.lower time) (Str.lower t))
                dish_suitable_times
       else [])
    user_meal_times.

(** Returns the [int] 0 or the [float] [len(set(dish_times)) * 0.5]. *)
Definition _calculate_meal_timing_score (dish : Dish) (user_data : User)
  : result num :=
  let user_meal_times := get (preferred_meal_times user_data) [] in
  let dish_suitable_times := get (time_of_day_suitability dish) [] in
  match user_meal_times, dish_suitable_times with
  | [], _ | _, [] => Ok (NInt 0)
  | _, _ =>
      let dish_times := timing_matches user_meal_times dish_suitable_times in
      x <- F64.num_mul_float
             (NInt (Z.of_nat (List.length (Str.to_set dish_times)))) half ;;
      Ok (NFloat x)
  end.

Definition _calculate_persona_match (dish : Dish) (user_data : User)
  : result num :=
  let user_personas := Str.to_set (get (persona_tags user_data) []) in
  let dish_personas := Str.to_set (get (dish_persona_tags dish) []) in
  match user_personas, dish_personas with
  | [], _ | _, [] => Ok (NInt 0)
  | _, _ =>
      let matches := Str.inter user_personas dish_personas in
      x <- F64.num_mul_float (NInt (Z.of_nat (List.length matches))) half ;;
      Ok (NFloat x)
  end.

(** *** The weighted sum: one step per [total_score += ...] *)

(** [total_score += factor * weight] *)
Definition accumulate (total_score : spec_float) (factor : num)
           (weight : spec_float) : result spec_float :=
  term <- F64.num_mul_float factor weight ;;
  Ok (F64.add total_score term).

Definition add_attribute_rankings (total_score : spec_float) (dish : Dish)
           (user_data : User) : result spec_float :=
  let rankings := get (attribute_rankings dish) [] in
  accumulate total_score
    (NInt (attribute_score rankings (normalize_user_preferences user_data)))
    w_attribute_rankings.

Definition add_caloric_alignment (total_score : spec_float) (dish : Dish)
           (target_calories : option Z) : result spec_float :=
  let rankings := get (attribute_rankings dish) [] in
  match target_calories, lookup "caloric_density" rankings with
  | Some tc, Some caloric_rankings =>
      if tc =? 0 then Ok total_score
      else accumulate total_score
             (NInt (_calculate_caloric_score dish caloric_rankings))
             w_caloric_alignment
  | _, _ => Ok total_score
  end.

(** [if target_protein:] is false for [None] and for a zero. *)
Definition add_protein_alignment (total_score : spec_float) (dish : Dish)
           (target_protein : option spec_float) : result spec_float :=
  match target_protein with
  | Some tp =>
      if F64.eqb tp F64.zero then Ok total_score
      else
        protein_score <- _calculate_protein_score dish tp ;;
        accumulate total_score (NInt protein_score) w_protein_alignment
  | None => Ok total_score
  end.

Definition add_dietary_match (total_score : spec_float) (dish : Dish)
           (user_data : User) : result spec_float :=
  accumulate total_score
    (NInt (_calculate_dietary_compatibility dish user_data)) w_dietary_match.

(** [total_score += allergy_penalty * abs(weights["allergy_penalty"])] *)
Definition add_allergy_risk (total_score : spec_float) (dish : Dish)
           (user_data : User) : result spec_float :=
  accumulate total_score (NInt (_calculate_allergy_risk dish user_data))
    (SFabs w_allergy_penalty).

Definition add_meal_timing (total_score : spec_float) (dish : Dish)
           (user_data : User) : result spec_float :=
  timing_score <- _calculate_meal_timing_score dish user_data ;;
  accumulate total_score timing_score w_meal_timing.

Definition add_persona_bonus (total_score : spec_float) (dish : Dish)
           (user_data : User) : result spec_float :=
  persona_score <- _calculate_persona_match dish user_data ;;
  accumulate total_score persona_score w_persona_bonus.

Definition calculate_comprehensive_score (dish : Dish) (user_data : User)
           (target_calories : option Z) (target_protein : option spec_float)
  : result spec_float :=
  let total_score := F64.zero in
  total_score <- add_attribute_rankings total_score dish user_data ;;
  total_score <- add_caloric_alignment total_score dish target_calories ;;
  total_score <- add_protein_alignment total_score dish target_protein ;;
  total_score <- add_dietary_match total_score dish user_data ;;
  total_score <- add_allergy_risk total_score dish user_data ;;
  total_score <- add_meal_timing total_score dish user_data ;;
  add_persona_bonus total_score dish user_data.

(** *** Hard constraints *)

Definition _has_allergy_conflict (dish : Dish) (user_data : User) : bool :=
  match allergy_conflicts dish user_data with
  | [] => false
  | _ => true
  end.

Definition _has_dietary_conflict (dish : Dish) (user_data : User) : bool :=
  let user_dietary := Str.lower (get (dietary_strictness user_data) EmptyString) in
  let dish_diet_tags := map Str.lower (get (diet_tags dish) []) in
  let conflicts :=
    [("vegan", "non-vegetarian"); ("vegetarian", "non-vegetarian")]%string in
  match lookup user_dietary conflicts with
  | Some tag => Str.mem tag dish_diet_tags
  | None => false
  end.

Definition region_mismatch (dish : Dish) (user_data : User) : bool :=
  let user_region := Str.lower (get (Region user_data) EmptyString) in
  Str.truthy user_region
  && negb (String.eqb (Str.lower (get (region dish) EmptyString)) user_region).

(** The loop appends a dish unless one of the three tests hits [continue]. *)
Fixpoint filter_dishes_by_constraints (dishes : list Dish) (user_data : User)
  : list Dish :=
  match dishes with
  | [] => []
  | dish :: rest =>
      if _has_allergy_conflict dish user_data then
        filter_dishes_by_constraints rest user_data
      else if _has_dietary_conflict dish user_data then
        filter_dishes_by_constraints rest user_data
      else if region_mismatch dish user_data then
        filter_dishes_by_constraints rest user_data
      else dish :: filter_dishes_by_constraints rest user_data
  end.

(** *** Ranking and selection *)

Fixpoint score_all (dishes : list Dish) (user_data : User)
         (target_calories : option Z) (target_protein : option spec_float)
  : result (list (Dish * spec_float)) :=
  match dishes with
  | [] => Ok []
  | dish :: rest =>
      score <- calculate_comprehensive_score dish user_data
                 target_calories target_protein ;;
      scored <- score_all rest user_data target_calories target_protein ;;
      Ok ((dish, score) :: scored)
  end.

(** [sort(key=score, reverse=True)]: stable, equal scores keep their order. *)
Fixpoint insert_desc (x : Dish * spec_float) (l : list (Dish * spec_float))
  : list (Dish * spec_float) :=
  match l with
  | [] => [x]
  | y :: l' =>
      if F64.ltb (snd x) (snd y) then y :: insert_desc x l' else x :: l
  end.

Definition sort_desc (l : list (Dish * spec_float)) : list (Dish * spec_float) :=
  fold_right insert_desc [] l.

Definition get_best_dishes_by_meal_type (dishes : list Dish) (user_data : User)
           (meal : string) (target_calories : option Z)
           (target_protein : option spec_float) (top_n : nat)
  : result (list Dish) :=
  let meal_dishes :=
    filter (fun dish =>
              String.eqb (Str.lower (get (meal_type dish) EmptyString))
                         (Str.lower meal))
           dishes in
  match meal_dishes with
  | [] => Ok []
  | _ =>
      let filtered_dishes := filter_dishes_by_constraints meal_dishes user_data in
      match filtered_dishes with
      | [] => Ok []
      | _ =>
          scored_dishes <- score_all filtered_dishes user_data
                             target_calories target_protein ;;
          Ok (map fst (firstn top_n (sort_desc scored_dishes)))
      end
  end.

(** [random.choice(seq)] on a non-empty list, with the drawn index made
    explicit: [rnd] stands for the state of the generator. *)
Definition random_choice {A : Type} (rnd : nat) (seq : list A) : option A :=
  nth_error seq (rnd mod List.length seq)%nat.

Definition get_optimal_dish (rnd : nat) (dishes : list Dish) (user_data : User)
           (meal : string) (target_calories : option Z)
           (target_protein : option spec_float) (randomize_top_n : nat)
  : result (option Dish) :=
  top_dishes <- get_best_dishes_by_meal_type dishes user_data meal
                  target_calories target_protein randomize_top_n ;;
  match top_dishes with
  | [] => Ok None
  | _ => Ok (random_choice rnd top_dishes)
  end.

Definition c03 : spec_float := Eval vm_compute in F64.lit 3 10.

Definition find_best_dish (rnd : nat) (dishes : list Dish) (user : User)
           (top_n : nat) : result (option Dish) :=
  let filtered_dishes := filter_dishes_by_constraints dishes user in
  match filtered_dishes with
  | [] => Ok None
  | _ =>
      let daily_protein := calculate_user_protein_needs user in
      let target_protein := F64.mul daily_protein c03 in
      scored_dishes <- score_all filtered_dishes user None (Some target_protein) ;;
      let top_dishes := map fst (firstn top_n (sort_desc scored_dishes)) in
      match top_dishes with
      | [] => Ok None
      | _ => Ok (random_choice rnd top_dishes)
      end
  end.

(** *** The complete meal plan: [calculate_meal_protein_target] and
    [generate_complete_meal_plan] *)

Definition protein_distribution : list (string * spec_float) :=
  Eval vm_compute in
  [("breakfast", F64.lit 25 100); ("lunch", F64.lit 35 100);
   ("dinner", F64.lit 30 100); ("snack", F64.lit 5 100)]%string.

Definition calculate_meal_protein_target (daily_protein : spec_float)
           (meal : string) : spec_float :=
  F64.mul daily_protein (get (lookup meal protein_distribution) (F64.lit 25 100)).

Definition calorie_distribution : list (string * spec_float) :=
  Eval vm_compute in
  [("breakfast", F64.lit 25 100); ("lunch", F64.lit 35 100);
   ("dinner", F64.lit 30 100); ("snack", F64.lit 10 100)]%string.

(** The dict [meal_plan], in insertion order. *)
Definition meal_plan_t : Type := list (string * option Dish).

(** [int(target_daily_calories * calorie_ratio)] *)
Definition slot_target_calories (target_daily_calories : Z) (calorie_ratio : spec_float)
  : result Z :=
  x <- F64.num_mul_float (NInt target_daily_calories) calorie_ratio ;;
  F64.trunc x.

(** One iteration of the loop over [calorie_distribution.items()]. The
    state is the plan so far and the number of [random.choice] draws made;
    [draw k] is the [k]-th draw. *)
Definition plan_step (draw : nat -> nat) (dishes : list Dish) (user_data : User)
           (target_daily_calories : Z) (daily_protein : spec_float)
           (st : meal_plan_t * nat) (item : string * spec_float)
  : result (meal_plan_t * nat) :=
  let '(meal_plan, k) := st in
  let '(meal, calorie_ratio) := item in
  target_calories <- slot_target_calories target_daily_calories calorie_ratio ;;
  let target_protein := calculate_meal_protein_target daily_protein meal in
  if String.eqb meal "snack" then
    let snack_calories :=
      if 100 <? target_calories then target_calories / 2 else target_calories in
    let snack_protein := target_protein in
    snack_1 <- get_optimal_dish (draw k) dishes user_data "snack"
                 (Some snack_calories) (Some snack_protein) 3 ;;
    let meal_plan := meal_plan ++ [("snack_1"%string, snack_1)] in
    if 100 <? target_calories then
      snack_2 <- get_optimal_dish (draw (S k)) dishes user_data "snack"
                   (Some snack_calories) (Some snack_protein) 3 ;;
      Ok (meal_plan ++ [("snack_2"%string, snack_2)], S (S k))
    else Ok (meal_plan, S k)
  else
    optimal_dish <- get_optimal_dish (draw k) dishes user_data meal
                      (Some target_calories) (Some target_protein) 3 ;;
    Ok (meal_plan ++ [(meal, optimal_dish)], S k).

Fixpoint plan_loop (draw : nat -> nat) (dishes : list Dish) (user_data : User)
         (target_daily_calories : Z) (daily_protein : spec_float)
         (items : list (string * spec_float)) (st : meal_plan_t * nat)
  : result (meal_plan_t * nat) :=
  match items with
  | [] => Ok st
  | item :: rest =>
      st' <- plan_step draw dishes user_data target_daily_calories daily_protein
               st item ;;
      plan_loop draw dishes user_data target_daily_calories daily_protein rest st'
  end.

Definition generate_complete_meal_plan (draw : nat -> nat) (dishes : list Dish)
           (user_data : User) (target_daily_calories : Z) : result meal_plan_t :=
  let daily_protein := calculate_user_protein_needs user_data in
  st <- plan_loop draw dishes user_data target_daily_calories daily_protein
          calorie_distribution ([], O) ;;
  Ok (fst st).

End DishFilter.

(** ** Specification vocabulary for binary64 rounding *)

(** [N / D] lies at location [l] above the integer [m]. *)
Definition inbetween (N D m : Z) (l : location) : Prop :=
  match l with
  | loc_Exact => N = m * D
  | loc_Inexact Lt => 2 * m * D < 2 * N < (2 * m + 1) * D
  | loc_Inexact Eq => 2 * N = (2 * m + 1) * D
  | loc_Inexact Gt => (2 * m + 1) * D < 2 * N < (2 * m + 2) * D
  end.

(** A double with a 53-bit mantissa. *)
Definition normal (f : spec_float) (s : bool) (m : positive) (e : Z) : Prop :=
  f = S754_finite s m e /\ 2 ^ 52 <= Zpos m < 2 ^ 53.

(** ** Specification vocabulary for [split_calories] *)

Import Py.
Import CalorieSplitter.

Definition finite_or_zero (f : spec_float) : Prop :=
  match f with
  | S754_zero _ | S754_finite _ _ _ => True
  | S754_infinity _ | S754_nan => False
  end.

(** A total that is a number and not a NaN. *)
Definition not_nan_num (a : num) : Prop :=
  match a with
  | NInt _ => True
  | NFloat f => f <> S754_nan
  end.

Definition slots5 (b l d s1 s2 : Z) : distribution :=
  [("breakfast", b); ("lunch", l); ("dinner", d);
   ("snack_1", s1); ("snack_2", s2)]%string.

Definition slots3 (b l d : Z) : distribution :=
  [("breakfast", b); ("lunch", l); ("dinner", d)]%string.

Definition positive_number (v : value) : Prop :=
  match as_number v with
  | Some (NInt z) => 0 < z
  | Some (NFloat f) => F64.ltb F64.zero f = true
  | None => False
  end.

Definition total_error : exn := ValueError "Total calories must be a positive number".
Definition frequency_error : exn :=
  ValueError "Meal frequency must be either '3 meals' or '3 meals + 2 snacks'".

(** The caloric target of the end-to-end scenario. *)
Definition scenario_target : result Z :=
  Api.adjusted_calories (F64.of_Z 70) 175 30 "Male" "sedentary" "Maintenance".

(** The dishes of a meal type: the first step of [get_best_dishes_by_meal_type]. *)
Definition of_meal (meal : string) (dishes : list DishFilter.Dish)
  : list DishFilter.Dish :=
  filter (fun dish =>
            String.eqb (Str.lower (DishFilter.get (DishFilter.meal_type dish) EmptyString))
                       (Str.lower meal))
         dishes.

(** ** Specification vocabulary for the score *)

Import DishFilter.



(** *** The protein bands, on exact values *)








(** ** Sample data *)

Definition sample_user : User := {|
  weight_kg := Some (F64.of_Z 70);
  primary_goal := Some "Maintenance"%string;
  lifestyle_type := Some "sedentary"%string;
  dietary_strictness := Some "vegetarian"%string;
  flavor_preferences := Some "mild"%string;
  prep_skill_level := Some "beginner"%string;
  affordability_preference := Some "moderate"%string;
  known_allergies := Some [VStr " Nuts "; VInt 3; VStr "  "]%string;
  preferred_meal_times := Some ["Morning"; "brunch"]%string;
  persona_tags := Some ["general"]%string;
  Region := None
|}.

Definition dish_nutty : Dish := {|
  name := "Almond porridge";
  meal_type := Some "breakfast"%string;
  calories := Some 320;
  protein_grams := Some 12;
  diet_tags := Some ["vegetarian"]%string;
  allergy_risks := Some ["NUTS"; "dairy"]%string;
  region := Some "north"%string;
  attribute_rankings := None;
  time_of_day_suitability := Some ["morning"]%string;
  dish_persona_tags := None
|}.

Definition dish_plain : Dish := {|
  name := "Vegetable upma";
  meal_type := Some "Breakfast"%string;
  calories := Some 280;
  protein_grams := Some 20;
  diet_tags := Some ["vegetarian"]%string;
  allergy_risks := Some ["gluten"]%string;
  region := Some "south"%string;
  attribute_rankings := None;
  time_of_day_suitability := Some ["Early Morning"; "morning"; "evening"]%string;
  dish_persona_tags := None
|}.

(** ** Specification vocabulary for the filter, the ranking and the plan *)

(** The three tests of the filter loop, as one predicate on a dish. *)
Definition passes_constraints (user_data : User) (dish : Dish) : bool :=
  negb (_has_allergy_conflict dish user_data)
  && negb (_has_dietary_conflict dish user_data)
  && negb (region_mismatch dish user_data).

Definition acceptable (dishes : list Dish) (user_data : User) (dish : Dish) : Prop :=
  In dish dishes
  /\ _has_allergy_conflict dish user_data = false
  /\ _has_dietary_conflict dish user_data = false
  /\ region_mismatch dish user_data = false.

Definition has_meal_type (meal : string) (dish : Dish) : Prop :=
  Str.lower (get (meal_type dish) EmptyString) = Str.lower meal.

(** A key that orders the doubles other than NaN as [<] does. *)
Definition order_key (f : spec_float) : Z * Z * Z :=
  match f with
  | S754_infinity true => (-2, 0, 0)
  | S754_finite true m e => (-1, - e, - Zpos m)
  | S754_zero _ | S754_nan => (0, 0, 0)
  | S754_finite false m e => (1, e, Zpos m)
  | S754_infinity false => (2, 0, 0)
  end.

Definition lex_lt (k1 k2 : Z * Z * Z) : Prop :=
  let '(a1, b1, c1) := k1 in
  let '(a2, b2, c2) := k2 in
  a1 < a2 \/ (a1 = a2 /\ b1 < b2) \/ (a1 = a2 /\ b1 = b2 /\ c1 < c2).

(** [x] is ranked no lower than [y]: its score is not below. *)
Definition not_below (x y : Dish * spec_float) : Prop :=
  F64.ltb (snd x) (snd y) = false.

Definition score_is_number (x : Dish * spec_float) : Prop := snd x <> S754_nan.

(** Every slot of a returned five-slot mapping is at least 0. *)
Definition slots_nonnegb (r : result distribution) : bool :=
  match r with
  | Ok d => forallb (fun kv => 0 <=? snd kv) d
  | Raise _ => false
  end.

(** [slots_nonnegb] on the totals [T, T + 1, ..., T + n - 1]. *)
Fixpoint nonneg_from (n : nat) (T : Z) : bool :=
  match n with
  | O => true
  | S k =>
      (Z.eqb T 19 || slots_nonnegb (split_calories (VInt T) "3 meals + 2 snacks"))
      && nonneg_from k (T + 1)
  end.

(** The goal as [calculate_user_protein_needs] looks it up. *)
Definition protein_goal_key (user_data : User) : string :=
  Str.replace_char "_" " "
    (Str.replace_char " " "_"
       (Str.lower (get (primary_goal user_data) "maintenance"%string))).

Definition lifestyle_key (user_data : User) : string :=
  Str.lower (get (lifestyle_type user_data) "sedentary"%string).

Definition with_goal (user_data : User) (goal : option string) : User := {|
  weight_kg := weight_kg user_data;
  primary_goal := goal;
  lifestyle_type := lifestyle_type user_data;
  dietary_strictness := dietary_strictness user_data;
  flavor_preferences := flavor_preferences user_data;
  prep_skill_level := prep_skill_level user_data;
  affordability_preference := affordability_preference user_data;
  known_allergies := known_allergies user_data;
  preferred_meal_times := preferred_meal_times user_data;
  persona_tags := persona_tags user_data;
  Region := Region user_data
|}.

(** The meal type a slot of the plan draws from. *)
Definition slot_meal_type (slot : string) : string :=
  if String.prefix "snack" slot then "snack"%string else slot.

(** The slots of the plan for a daily target [T]. *)
Definition plan_slots (T : Z) : list string :=
  ["breakfast"; "lunch"; "dinner"; "snack_1"]%string
  ++ (if 1010 <=? T then ["snack_2"%string] else []).

(** The categories of [categorize_bmi], in increasing order. *)
Definition category_rank (category : string) : Z :=
  if String.eqb category "Underweight" then 0
  else if String.eqb category "Normal weight" then 1
  else if String.eqb category "Overweight" then 2
  else 3.

(** ** Further sample data *)

Definition dish_meaty : Dish := {|
  name := "Chicken curry";
  meal_type := Some "lunch"%string;
  calories := Some 450;
  protein_grams := Some 35;
  diet_tags := Some ["Non-Vegetarian"; "high-protein"]%string;
  allergy_risks := None;
  region := Some "north"%string;
  attribute_rankings := None;
  time_of_day_suitability := Some ["afternoon"]%string;
  dish_persona_tags := None
|}.

Definition dish_snack : Dish := {|
  name := "Roasted chana";
  meal_type := Some "Snack"%string;
  calories := Some 120;
  protein_grams := Some 6;
  diet_tags := Some ["vegan"]%string;
  allergy_risks := None;
  region := Some "South"%string;
  attribute_rankings := None;
  time_of_day_suitability := Some ["snacks"]%string;
  dish_persona_tags := None
|}.

Definition sample_catalog : list Dish :=
  [dish_nutty; dish_plain; dish_meaty; dish_snack].

(** [sample_user] with a region, and a user dict with no key at all. *)
Definition sample_user_south : User := {|
  weight_kg := weight_kg sample_user;
  primary_goal := primary_goal sample_user;
  lifestyle_type := lifestyle_type sample_user;
  dietary_strictness := dietary_strictness sample_user;
  flavor_preferences := flavor_preferences sample_user;
  prep_skill_level := prep_skill_level sample_user;
  affordability_preference := affordability_preference sample_user;
  known_allergies := known_allergies sample_user;
  preferred_meal_times := preferred_meal_times sample_user;
  persona_tags := persona_tags sample_user;
  Region := Some "South"%string
|}.

Definition empty_user : User := {|
  weight_kg := None;
  primary_goal := None;
  lifestyle_type := None;
  dietary_strictness := None;
  flavor_preferences := None;
  prep_skill_level := None;
  affordability_preference := None;
  known_allergies := None;
  preferred_meal_times := None;
  persona_tags := None;
  Region := None
|}.

Definition sample_scored : list (Dish * spec_float) :=
  [(dish_nutty, F64.of_Z 1); (dish_plain, F64.of_Z 2); (dish_snack, F64.of_Z 1)].

(** The generator state of the sample runs: every draw is 0. *)
Definition first_draw (k : nat) : nat := 0%nat.

Definition sample_plan : meal_plan_t :=
  [("breakfast", Some dish_plain); ("lunch", None); ("dinner", None);
   ("snack_1", Some dish_snack); ("snack_2", Some dish_snack)]%string.

(** * Properties *)

Import Py.

(** ** Binary64 rounding

    What [binary_round_aux] computes on a mantissa of at least 53 bits, in
    the range without underflow or overflow, and its consequences for the
    operations of [split_calories]. *)

Lemma digits2_bounds (p : positive) :
  2 ^ (Zpos (digits2_pos p) - 1) <= Zpos p < 2 ^ Zpos (digits2_pos p).
Proof.
  induction p as [p IH | p IH |]; cbn [digits2_pos].
  - rewrite Pos2Z.inj_succ, (Pos2Z.inj_xI p).
    replace (Z.succ (Zpos (digits2_pos p)) - 1) with (Z.succ (Zpos (digits2_pos p) - 1)) by lia.
    rewrite !Z.pow_succ_r by lia. lia.
  - rewrite Pos2Z.inj_succ, (Pos2Z.inj_xO p).
    replace (Z.succ (Zpos (digits2_pos p)) - 1) with (Z.succ (Zpos (digits2_pos p) - 1)) by lia.
    rewrite !Z.pow_succ_r by lia. lia.
  - cbn. lia.
Qed.

Lemma digits2_unique (p : positive) (d : Z) :
  2 ^ (d - 1) <= Zpos p < 2 ^ d -> Zpos (digits2_pos p) = d.
Proof.
  intros [Hlo Hhi]. pose proof (digits2_bounds p) as [Blo Bhi].
  assert (0 < d).
  { destruct d; try lia. rewrite Z.pow_neg_r in Hhi; lia. }
  destruct (Z.lt_trichotomy (Zpos (digits2_pos p)) d) as [H1 | [H1 | H1]]; [| assumption |].
  - assert (2 ^ Zpos (digits2_pos p) <= 2 ^ (d - 1)) by (apply Z.pow_le_mono_r; lia). lia.
  - assert (2 ^ d <= 2 ^ (Zpos (digits2_pos p) - 1)) by (apply Z.pow_le_mono_r; lia). lia.
Qed.


Lemma loc_of_record_of_loc (m : Z) (l : location) :
  loc_of_shr_record (shr_record_of_loc m l) = l
  /\ shr_m (shr_record_of_loc m l) = m.
Proof. destruct l as [| []]; cbn; auto. Qed.

Lemma shr_1_m (mrs : shr_record) :
  0 <= shr_m mrs ->
  shr_m mrs = 2 * shr_m (shr_1 mrs) + (if shr_r (shr_1 mrs) then 1 else 0)
  /\ shr_s (shr_1 mrs) = shr_r mrs || shr_s mrs.
Proof.
  destruct mrs as [m r s]. cbn [shr_m shr_r shr_s]. intros Hm.
  destruct m as [| [p | p |] |]; cbn [shr_1 shr_m shr_r shr_s]; try lia; auto.
Qed.

Lemma loc_of_shr_record_eq (mrs : shr_record) :
  loc_of_shr_record mrs =
  match shr_r mrs, shr_s mrs with
  | false, false => loc_Exact
  | false, true => loc_Inexact Lt
  | true, false => loc_Inexact Eq
  | true, true => loc_Inexact Gt
  end.
Proof. destruct mrs as [m [] []]; reflexivity. Qed.

Lemma shr_1_inbetween (N D : Z) (mrs : shr_record) :
  0 <= shr_m mrs -> 0 < D ->
  inbetween N D (shr_m mrs) (loc_of_shr_record mrs) ->
  inbetween N (D * 2) (shr_m (shr_1 mrs)) (loc_of_shr_record (shr_1 mrs))
  /\ shr_m (shr_1 mrs) = shr_m mrs / 2.
Proof.
  intros Hm HD H. destruct (shr_1_m mrs Hm) as [Em Es].
  rewrite loc_of_shr_record_eq in *. rewrite Es.
  set (m' := shr_m (shr_1 mrs)) in *. set (m := shr_m mrs) in *.
  split.
  - destruct (shr_r (shr_1 mrs)), (shr_r mrs), (shr_s mrs);
      cbv [orb inbetween] in *; nia.
  - destruct (shr_r (shr_1 mrs)).
    + apply Z.div_unique with (r := 1); lia.
    + apply Z.div_unique with (r := 0); lia.
Qed.

Lemma iter_shr_1_inbetween (N : Z) (p : positive) :
  forall (D : Z) (mrs : shr_record),
    0 <= shr_m mrs -> 0 < D ->
    inbetween N D (shr_m mrs) (loc_of_shr_record mrs) ->
    inbetween N (D * 2 ^ Zpos p) (shr_m (iter_pos shr_1 p mrs))
              (loc_of_shr_record (iter_pos shr_1 p mrs))
    /\ shr_m (iter_pos shr_1 p mrs) = shr_m mrs / 2 ^ Zpos p.
Proof.
  induction p as [p IH | p IH |]; intros D mrs Hm HD H; cbn [iter_pos].
  - destruct (shr_1_inbetween N D mrs Hm HD H) as [H1 E1].
    assert (Hm1 : 0 <= shr_m (shr_1 mrs)) by (rewrite E1; apply Z.div_pos; lia).
    destruct (IH (D * 2) (shr_1 mrs) Hm1 ltac:(lia) H1) as [H2 E2].
    assert (P : 0 < 2 ^ Zpos p) by (apply Z.pow_pos_nonneg; lia).
    assert (Hm2 : 0 <= shr_m (iter_pos shr_1 p (shr_1 mrs)))
      by (rewrite E2; apply Z.div_pos; lia).
    destruct (IH (D * 2 * 2 ^ Zpos p) _ Hm2 ltac:(nia) H2) as [H3 E3].
    rewrite (Pos2Z.inj_xI p).
    replace (2 * Zpos p + 1) with (1 + Zpos p + Zpos p) by lia.
    rewrite !Z.pow_add_r by lia. rewrite Z.pow_1_r.
    split.
    + replace (D * (2 * 2 ^ Zpos p * 2 ^ Zpos p))
        with (D * 2 * 2 ^ Zpos p * 2 ^ Zpos p) by ring.
      exact H3.
    + rewrite E3, E2, E1. rewrite !Z.div_div by lia. f_equal. ring.
  - assert (P : 0 < 2 ^ Zpos p) by (apply Z.pow_pos_nonneg; lia).
    destruct (IH D mrs Hm HD H) as [H2 E2].
    assert (Hm2 : 0 <= shr_m (iter_pos shr_1 p mrs))
      by (rewrite E2; apply Z.div_pos; lia).
    destruct (IH (D * 2 ^ Zpos p) _ Hm2 ltac:(nia) H2) as [H3 E3].
    rewrite (Pos2Z.inj_xO p).
    replace (2 * Zpos p) with (Zpos p + Zpos p) by lia.
    rewrite !Z.pow_add_r by lia.
    split.
    + replace (D * (2 ^ Zpos p * 2 ^ Zpos p)) with (D * 2 ^ Zpos p * 2 ^ Zpos p) by ring.
      exact H3.
    + rewrite E3, E2. rewrite !Z.div_div by lia. f_equal.
  - change (2 ^ 1) with 2. apply shr_1_inbetween; assumption.
Qed.

Lemma round_nearest_even_inbetween (N D m : Z) (l : location) :
  0 < D -> inbetween N D m l ->
  m <= round_nearest_even m l <= m + 1
  /\ - D <= 2 * N - 2 * round_nearest_even m l * D <= D.
Proof.
  intros HD H. destruct l as [| []]; cbv [round_nearest_even inbetween] in *.
  - nia.
  - destruct (Z.even m); nia.
  - nia.
  - nia.
Qed.

Lemma inbetween_exact (N D m a : Z) (l : location) :
  0 < D -> inbetween N D m l -> N = a * D -> l = loc_Exact /\ m = a.
Proof.
  intros HD H E. subst N.
  assert (C : a <= m - 1 \/ a = m \/ m + 1 <= a) by lia.
  destruct l as [| []]; cbv [inbetween] in H.
  - split; [reflexivity |]. apply Z.mul_cancel_r in H; lia.
  - exfalso. destruct C as [C | [C | C]]; nia.
  - exfalso. destruct C as [C | [C | C]]; nia.
  - exfalso. destruct C as [C | [C | C]]; nia.
Qed.

Lemma fexp_normal (d : Z) :
  -1021 <= d -> fexp F64.prec F64.emax d = d - 53.
Proof. intros H. unfold fexp, emin, F64.prec, F64.emax. lia. Qed.

Lemma pow2_pos (n : Z) : 0 <= n -> 0 < 2 ^ n.
Proof. intros H. apply Z.pow_pos_nonneg; lia. Qed.

Lemma pow2_le (a b : Z) : 0 <= a <= b -> 2 ^ a <= 2 ^ b.
Proof. intros H. apply Z.pow_le_mono_r; lia. Qed.

Lemma Zdigits2_bounds (m : Z) :
  0 < m -> 2 ^ (Zdigits2 m - 1) <= m < 2 ^ Zdigits2 m.
Proof. destruct m as [| p | p]; try lia. intros _. apply digits2_bounds. Qed.

Lemma Zdigits2_unique (m d : Z) :
  0 < m -> 2 ^ (d - 1) <= m < 2 ^ d -> Zdigits2 m = d.
Proof. destruct m as [| p | p]; try lia. intros _. apply digits2_unique. Qed.

Lemma shr_fexp_normal (mx ex : Z) (lx : location) (N D : Z) :
  0 < mx -> 0 < D -> inbetween N D mx lx ->
  53 <= Zdigits2 mx -> -1074 <= Zdigits2 mx + ex - 53 ->
  exists mrs,
    shr_fexp F64.prec F64.emax mx ex lx = (mrs, ex + (Zdigits2 mx - 53))
    /\ inbetween N (D * 2 ^ (Zdigits2 mx - 53)) (shr_m mrs) (loc_of_shr_record mrs)
    /\ shr_m mrs = mx / 2 ^ (Zdigits2 mx - 53).
Proof.
  intros Hm HD H Hd He. unfold shr_fexp.
  rewrite fexp_normal by lia.
  replace (Zdigits2 mx + ex - 53 - ex) with (Zdigits2 mx - 53) by lia.
  destruct (loc_of_record_of_loc mx lx) as [El Em].
  destruct (Zdigits2 mx - 53) as [| p | p] eqn:En; try lia.
  - exists (shr_record_of_loc mx lx). cbn [shr].
    rewrite Z.add_0_r, Z.pow_0_r, Z.mul_1_r, Z.div_1_r, El, Em. auto.
  - cbn [shr].
    destruct (iter_shr_1_inbetween N p D (shr_record_of_loc mx lx)) as [H1 E1].
    + rewrite Em. lia.
    + assumption.
    + rewrite El, Em. assumption.
    + eexists. split; [reflexivity |]. rewrite Em in E1. auto.
Qed.

Lemma binary_round_aux_normal (s : bool) (mx ex : Z) (lx : location) (N D : Z) :
  0 < mx -> 0 < D -> inbetween N D mx lx ->
  53 <= Zdigits2 mx -> -1074 <= Zdigits2 mx + ex - 53 ->
  Zdigits2 mx + ex <= 1023 ->
  exists m j,
    binary_round_aux F64.prec F64.emax s mx ex lx = S754_finite s m (ex + j)
    /\ 2 ^ 52 <= Zpos m < 2 ^ 53
    /\ Zdigits2 mx - 53 <= j <= Zdigits2 mx - 52
    /\ - (D * 2 ^ j) <= 2 * N - 2 * Zpos m * (D * 2 ^ j) <= D * 2 ^ j
    /\ (forall a, N = a * (D * 2 ^ (Zdigits2 mx - 53)) ->
                  Zpos m = a /\ j = Zdigits2 mx - 53).
Proof.
  intros Hm HD H Hd He Ho.
  destruct (shr_fexp_normal mx ex lx N D Hm HD H Hd He) as [mrs [E1 [H1 M1]]].
  set (n := Zdigits2 mx - 53) in *.
  assert (Pn : 0 < 2 ^ n) by (apply pow2_pos; lia).
  destruct (Zdigits2_bounds mx Hm) as [Blo Bhi].
  assert (B1 : 2 ^ 52 <= shr_m mrs < 2 ^ 53).
  { rewrite M1. split.
    - apply Z.div_le_lower_bound; [assumption |].
      rewrite Z.mul_comm, <- Z.pow_add_r by lia.
      replace (52 + n) with (Zdigits2 mx - 1) by lia. assumption.
    - apply Z.div_lt_upper_bound; [assumption |].
      rewrite <- Z.pow_add_r by lia.
      replace (n + 53) with (Zdigits2 mx) by lia. assumption. }
  destruct (round_nearest_even_inbetween N (D * 2 ^ n) (shr_m mrs)
              (loc_of_shr_record mrs) ltac:(nia) H1) as [R1 R2].
  unfold binary_round_aux. rewrite E1.
  set (m2 := round_nearest_even (shr_m mrs) (loc_of_shr_record mrs)) in *.
  assert (C : m2 < 2 ^ 53 \/ m2 = 2 ^ 53) by lia.
  destruct C as [C | C].
  - assert (Dg : Zdigits2 m2 = 53) by (apply Zdigits2_unique; [lia | split; simpl; lia]).
    unfold shr_fexp. rewrite Dg. rewrite fexp_normal by lia.
    replace (53 + (ex + n) - 53 - (ex + n)) with 0 by lia.
    cbn [shr shr_record_of_loc shr_m].
    destruct m2 as [| q | q] eqn:Eq; try lia.
    replace (ex + n <=? F64.emax - F64.prec) with true
      by (symmetry; apply Z.leb_le; unfold F64.emax, F64.prec; lia).
    exists q, n. refine (conj eq_refl (conj _ (conj _ (conj _ _)))); try lia.
    intros a Ha. destruct (inbetween_exact N (D * 2 ^ n) (shr_m mrs) a _ ltac:(nia) H1 Ha) as [L1 A1].
    subst m2. rewrite L1 in Eq. cbn [round_nearest_even] in Eq. lia.
  - assert (Dg : Zdigits2 m2 = 54) by (rewrite C; reflexivity).
    unfold shr_fexp. rewrite Dg. rewrite fexp_normal by lia.
    replace (54 + (ex + n) - 53 - (ex + n)) with 1 by lia.
    rewrite C. cbn [shr shr_record_of_loc iter_pos].
    change (shr_m (shr_1 {| shr_m := 2 ^ 53; shr_r := false; shr_s := false |}))
      with (Zpos (Z.to_pos (2 ^ 52))).
    replace (ex + n + 1 <=? F64.emax - F64.prec) with true
      by (symmetry; apply Z.leb_le; unfold F64.emax, F64.prec; lia).
    exists (Z.to_pos (2 ^ 52)), (n + 1).
    rewrite Z.add_assoc.
    split; [reflexivity |].
    change (Zpos (Z.to_pos (2 ^ 52))) with (2 ^ 52).
    rewrite Z.pow_add_r by lia. rewrite Z.pow_1_r.
    rewrite C in R2.
    refine (conj _ (conj _ (conj _ _))); try lia.
    intros a Ha. exfalso.
      destruct (inbetween_exact N (D * 2 ^ n) (shr_m mrs) a _ ltac:(nia) H1 Ha) as [L1 A1].
      subst m2. rewrite L1 in C. cbn [round_nearest_even] in C. lia.
Qed.

Lemma iter_xO (p k : positive) : Zpos (Pos.iter xO p k) = Zpos p * 2 ^ Zpos k.
Proof.
  induction k as [| k IH] using Pos.peano_ind.
  - cbn [Pos.iter]. rewrite (Pos2Z.inj_xO p). change (2 ^ 1) with 2. ring.
  - rewrite Pos.iter_succ, (Pos2Z.inj_xO (Pos.iter xO p k)), IH, Pos2Z.inj_succ.
    rewrite Z.pow_succ_r by lia. ring.
Qed.


(** Conversion of an integer below 2^53 is exact. *)
Lemma binary_round_exact (s : bool) (p : positive) :
  Zpos p < 2 ^ 53 ->
  exists m e,
    normal (binary_round F64.prec F64.emax s p 0) s m e
    /\ -52 <= e <= 0 /\ Zpos m = Zpos p * 2 ^ (- e).
Proof.
  intros Hp. pose proof (digits2_bounds p) as [Blo Bhi].
  set (d := Zpos (digits2_pos p)) in *.
  assert (Hd : 1 <= d <= 53).
  { split; [unfold d; lia |].
    destruct (Z_le_gt_dec d 53) as [H | H]; [assumption |].
    assert (2 ^ 53 <= 2 ^ (d - 1)) by (apply Z.pow_le_mono_r; lia). lia. }
  unfold binary_round.
  rewrite Z.add_0_r. fold d. rewrite fexp_normal by lia.
  unfold shl_align. rewrite Z.sub_0_r.
  assert (Hs : exists mz, (match d - 53 with
                           | Z.neg k => (Pos.iter xO p k, d - 53)
                           | _ => (p, 0)
                           end) = (mz, d - 53)
                          /\ Zpos mz = Zpos p * 2 ^ (53 - d)).
  { destruct (d - 53) as [| k | k] eqn:Ek; try lia.
    - exists p. replace (53 - d) with 0 by lia. split; [reflexivity | simpl; lia].
    - exists (Pos.iter xO p k). split; [reflexivity |].
      rewrite iter_xO. f_equal. f_equal. lia. }
  destruct Hs as [mz [-> Emz]].
  assert (P : 0 < 2 ^ (53 - d)) by (apply pow2_pos; lia).
  assert (Bz : 2 ^ 52 <= Zpos mz < 2 ^ 53).
  { rewrite Emz. split.
    - replace 52 with ((d - 1) + (53 - d)) by lia. rewrite Z.pow_add_r by lia. nia.
    - replace 53 with (d + (53 - d)) at 2 by lia. rewrite Z.pow_add_r by lia. nia. }
  assert (Dz : Zdigits2 (Zpos mz) = 53) by (apply Zdigits2_unique; [lia | exact Bz]).
  destruct (binary_round_aux_normal s (Zpos mz) (d - 53) loc_Exact (Zpos mz) 1)
    as [m [j [E [Bm [Bj [_ Ex]]]]]]; try (rewrite ?Dz; lia).
  - cbv [inbetween]. lia.
  - destruct (Ex (Zpos mz)) as [Em Ej].
    { rewrite Dz. simpl. lia. }
    rewrite Dz in Ej. replace j with 0 in E by lia. rewrite Z.add_0_r in E.
    exists m, (d - 53). unfold normal. rewrite E.
    repeat split; try lia.
    rewrite Em, Emz. f_equal. f_equal. lia.
Qed.


Lemma of_Z_pos_exact (p : positive) :
  Zpos p < 2 ^ 53 ->
  exists m e,
    normal (F64.of_Z (Zpos p)) false m e
    /\ -52 <= e <= 0 /\ Zpos m = Zpos p * 2 ^ (- e).
Proof. intros Hp. exact (binary_round_exact false p Hp). Qed.

Lemma mul_normal (x y : spec_float) (sx sy : bool) (mx my : positive) (ex ey : Z) :
  normal x sx mx ex -> normal y sy my ey ->
  -1126 <= ex + ey <= 917 ->
  exists m j,
    normal (F64.mul x y) (xorb sx sy) m (ex + ey + j)
    /\ 52 <= j <= 54
    /\ - 2 ^ j <= 2 * (Zpos mx * Zpos my) - 2 * Zpos m * 2 ^ j <= 2 ^ j
    /\ (forall a, Zpos mx * Zpos my = a * 2 ^ (Zdigits2 (Zpos mx * Zpos my) - 53) ->
                  Zpos m = a /\ j = Zdigits2 (Zpos mx * Zpos my) - 53).
Proof.
  intros [-> Bx] [-> By] He.
  unfold F64.mul, SFmul.
  assert (Bp : 2 ^ 104 <= Zpos mx * Zpos my < 2 ^ 106).
  { change (2 ^ 104) with (2 ^ 52 * 2 ^ 52). change (2 ^ 106) with (2 ^ 53 * 2 ^ 53). nia. }
  assert (Dp : 105 <= Zdigits2 (Zpos mx * Zpos my) <= 106).
  { pose proof (Zdigits2_bounds (Zpos mx * Zpos my) ltac:(lia)) as [Blo Bhi].
    set (d := Zdigits2 (Zpos mx * Zpos my)) in *.
    split.
    - destruct (Z_le_gt_dec 105 d) as [H | H]; [assumption |].
      assert (2 ^ d <= 2 ^ 104) by (apply Z.pow_le_mono_r; lia). lia.
    - destruct (Z_le_gt_dec d 106) as [H | H]; [assumption |].
      assert (2 ^ 106 <= 2 ^ (d - 1)) by (apply Z.pow_le_mono_r; lia). lia. }
  change (Zpos (mx * my)) with (Zpos mx * Zpos my).
  destruct (binary_round_aux_normal (xorb sx sy) (Zpos mx * Zpos my) (ex + ey)
              loc_Exact (Zpos mx * Zpos my) 1)
    as [m [j [E [Bm [Bj [Bd Ex]]]]]]; try lia.
  - cbv [inbetween]. lia.
  - exists m, j. unfold normal. rewrite E.
    refine (conj (conj eq_refl Bm) (conj _ (conj _ _))); try lia.
    intros a Ha. apply Ex. lia.
Qed.

Lemma new_location_inbetween (D q r : Z) :
  0 < D -> 0 <= r < D -> inbetween (q * D + r) D q (new_location D r).
Proof.
  intros HD Hr. unfold new_location.
  destruct (Z.even D) eqn:Ev.
  - unfold new_location_even. destruct (Z.eqb_spec r 0) as [-> | Hn].
    + cbv [inbetween]. lia.
    + destruct (Z.compare_spec (2 * r) D); cbv [inbetween]; nia.
  - unfold new_location_odd. destruct (Z.eqb_spec r 0) as [-> | Hn].
    + cbv [inbetween]. lia.
    + assert (Od : Z.odd D = true) by (rewrite <- Z.negb_even, Ev; reflexivity).
      apply Z.odd_spec in Od. destruct Od as [k Hk].
      destruct (Z.compare_spec (2 * r + 1) D); cbv [inbetween]; nia.
Qed.

Lemma div_normal (x y : spec_float) (sx sy : bool) (mx my : positive) (ex ey : Z) :
  normal x sx mx ex -> normal y sy my ey ->
  -1021 <= ex - ey <= 1022 ->
  exists m j,
    normal (F64.div x y) (xorb sx sy) m (ex - ey - 53 + j)
    /\ 0 <= j <= 2
    /\ - (Zpos my * 2 ^ j) <= 2 * (Zpos mx * 2 ^ 53) - 2 * Zpos m * (Zpos my * 2 ^ j)
       <= Zpos my * 2 ^ j.
Proof.
  intros [-> Bx] [-> By] He.
  unfold F64.div, SFdiv, SFdiv_core_binary.
  rewrite (Zdigits2_unique (Zpos mx) 53) by (simpl; lia).
  rewrite (Zdigits2_unique (Zpos my) 53) by (simpl; lia).
  replace (53 + ex - (53 + ey)) with (ex - ey) by lia.
  rewrite fexp_normal by lia.
  rewrite Z.min_l by lia.
  replace (ex - ey - (ex - ey - 53)) with 53 by lia.
  rewrite Z.shiftl_mul_pow2 by lia.
  pose proof (Z_div_mod (Zpos mx * 2 ^ 53) (Zpos my) ltac:(lia)) as Hdm.
  destruct (Z.div_eucl (Zpos mx * 2 ^ 53) (Zpos my)) as [q r].
  destruct Hdm as [Eq Hr].
  assert (Bq : 2 ^ 52 <= q < 2 ^ 54).
  { change (2 ^ 54) with (2 * 2 ^ 53) in *. change (2 ^ 53) with (2 * 2 ^ 52) in *. nia. }
  assert (Dq : 53 <= Zdigits2 q <= 54).
  { pose proof (Zdigits2_bounds q ltac:(lia)) as [Blo Bhi].
    set (d := Zdigits2 q) in *.
    split.
    - destruct (Z_le_gt_dec 53 d) as [H | H]; [assumption |].
      assert (2 ^ d <= 2 ^ 52) by (apply Z.pow_le_mono_r; lia). lia.
    - destruct (Z_le_gt_dec d 54) as [H | H]; [assumption |].
      assert (2 ^ 54 <= 2 ^ (d - 1)) by (apply Z.pow_le_mono_r; lia). lia. }
  destruct (binary_round_aux_normal (xorb sx sy) q (ex - ey - 53)
              (new_location (Zpos my) r) (Zpos mx * 2 ^ 53) (Zpos my))
    as [m [j [E [Bm [Bj [Bd _]]]]]]; try lia.
  - rewrite Eq. replace (Zpos my * q + r) with (q * Zpos my + r) by ring.
    apply new_location_inbetween; lia.
  - exists m, j. unfold normal. rewrite E.
    refine (conj (conj eq_refl Bm) (conj _ _)); lia.
Qed.

Lemma round_half_even_pos_bound (m k : Z) :
  0 <= k ->
  - 2 ^ k <= 2 * m - 2 * F64.round_half_even_pos m k * 2 ^ k <= 2 ^ k.
Proof.
  intros Hk. unfold F64.round_half_even_pos.
  assert (P : 0 < 2 ^ k) by (apply pow2_pos; lia).
  pose proof (Z.div_mod m (2 ^ k) ltac:(lia)) as E.
  pose proof (Z.mod_pos_bound m (2 ^ k) P) as B.
  set (q := m / 2 ^ k) in *. set (r := m mod 2 ^ k) in *.
  destruct (Z.compare_spec (2 * r) (2 ^ k)).
  - destruct (Z.even q); nia.
  - nia.
  - nia.
Qed.

Lemma round_normal (f : spec_float) (s : bool) (m : positive) (e : Z) :
  normal f s m e -> e < 0 ->
  exists a,
    F64.round f = Ok (if s then - a else a)
    /\ 0 <= a
    /\ - 2 ^ (- e) <= 2 * Zpos m - 2 * a * 2 ^ (- e) <= 2 ^ (- e).
Proof.
  intros [-> Bm] He. unfold F64.round.
  replace (0 <=? e) with false by (symmetry; apply Z.leb_gt; lia).
  exists (F64.round_half_even_pos (Zpos m) (- e)).
  split; [reflexivity |].
  pose proof (round_half_even_pos_bound (Zpos m) (- e) ltac:(lia)) as B.
  split; [| exact B].
  assert (P : 0 < 2 ^ (- e)) by (apply pow2_pos; lia).
  nia.
Qed.

Lemma int_truediv_2 (a : Z) :
  a <> 0 -> Z.abs a < 2 ^ 53 ->
  exists f m e,
    F64.int_truediv a 2 = Ok f
    /\ normal f (a <? 0) m e
    /\ -54 <= e <= -1
    /\ 2 * Zpos m = Z.abs a * 2 ^ (- e).
Proof.
  intros Ha Hb. unfold F64.int_truediv.
  assert (Hpos : 0 < Z.abs a) by lia.
  pose proof (Zdigits2_bounds (Z.abs a) Hpos) as [Blo Bhi].
  assert (Hd : 1 <= Zdigits2 (Z.abs a) <= 53).
  { split.
    - destruct (Z.abs a); simpl; lia.
    - destruct (Z_le_gt_dec (Zdigits2 (Z.abs a)) 53) as [H | H]; [assumption |].
      assert (2 ^ 53 <= 2 ^ (Zdigits2 (Z.abs a) - 1)) by (apply Z.pow_le_mono_r; lia).
      lia. }
  set (d := Zdigits2 (Z.abs a)) in *.
  assert (Ecore : SFdiv_core_binary F64.prec F64.emax (Z.abs a) 0 (Z.abs 2) 0
                  = (Z.abs a * 2 ^ (54 - d), d - 55, loc_Exact)).
  { unfold SFdiv_core_binary. fold d. change (Zdigits2 (Z.abs 2)) with 2.
    replace (d + 0 - (2 + 0)) with (d - 2) by lia.
    rewrite fexp_normal by lia. rewrite Z.min_l by lia.
    replace (0 - 0 - (d - 2 - 53)) with (55 - d) by lia.
    destruct (55 - d) as [| k | k] eqn:Ek; try lia.
    rewrite Z.shiftl_mul_pow2 by lia. rewrite <- Ek.
    replace (55 - d) with (1 + (54 - d)) by lia.
    rewrite Z.pow_add_r by lia. change (2 ^ 1) with 2. change (Z.abs 2) with 2.
    pose proof (Z_div_mod (Z.abs a * (2 * 2 ^ (54 - d))) 2 ltac:(lia)) as Hdm.
    destruct (Z.div_eucl (Z.abs a * (2 * 2 ^ (54 - d))) 2) as [q r].
    destruct Hdm as [Eq Hr].
    assert (r = 0) by lia. subst r.
    assert (q = Z.abs a * 2 ^ (54 - d)) by lia. subst q.
    replace (d - 2 - 53) with (d - 55) by lia. reflexivity. }
  assert (P : 0 < 2 ^ (53 - d)) by (apply pow2_pos; lia).
  set (q := Z.abs a * 2 ^ (54 - d)) in *.
  assert (Eq2 : q = Z.abs a * 2 ^ (53 - d) * 2).
  { unfold q. replace (54 - d) with ((53 - d) + 1) by lia.
    rewrite Z.pow_add_r by lia. change (2 ^ 1) with 2. ring. }
  assert (Ba : 2 ^ 52 <= Z.abs a * 2 ^ (53 - d) < 2 ^ 53).
  { split.
    - replace 52 with ((d - 1) + (53 - d)) by lia. rewrite Z.pow_add_r by lia. nia.
    - replace 53 with (d + (53 - d)) at 2 by lia. rewrite Z.pow_add_r by lia. nia. }
  assert (Dq : Zdigits2 q = 54).
  { apply Zdigits2_unique; [lia |]. rewrite Eq2.
    change (2 ^ (54 - 1)) with (2 ^ 52 * 2). change (2 ^ 54) with (2 ^ 53 * 2). lia. }
  destruct (binary_round_aux_normal (xorb (a <? 0) (2 <? 0)) q (d - 55) loc_Exact q 1)
    as [m [j [E [Bm [Bj [_ Ex]]]]]]; try (rewrite ?Dq; lia).
  { cbv [inbetween]. lia. }
  destruct (Ex (Z.abs a * 2 ^ (53 - d))) as [Em Ej].
  { rewrite Dq. change (2 ^ (54 - 53)) with 2. lia. }
  rewrite Dq in Ej. subst j.
  change (xorb (a <? 0) (2 <? 0)) with (xorb (a <? 0) false) in E.
  rewrite xorb_false_r in E.
  exists (S754_finite (a <? 0) m (d - 55 + (54 - 53))), m, (d - 54).
  split.
  - destruct a as [| p | p]; try lia; rewrite Ecore;
      change (xorb (_ <? 0) (2 <? 0)) with (xorb (Z.neg p <? 0) false) +
      change (xorb (_ <? 0) (2 <? 0)) with (xorb (Z.pos p <? 0) false);
      rewrite xorb_false_r; rewrite E; reflexivity.
  - split; [split; [f_equal; lia | exact Bm] |].
    split; [lia |].
    rewrite Em. replace (- (d - 54)) with ((53 - d) + 1) by lia.
    rewrite Z.pow_add_r by lia. change (2 ^ 1) with 2. ring.
Qed.

Lemma ten_normal : normal CalorieSplitter.ten false 5629499534213120 (-49).
Proof. split; [reflexivity | simpl; lia]. Qed.

(** [round(x / 10)] for a normal [x = mx * 2^ex] of moderate size:
    the result [a] is within [1/2 + ulp] of [x / 10]. *)
Lemma round_div_ten (x : spec_float) (s : bool) (mx : positive) (ex : Z) :
  normal x s mx ex -> -60 <= ex <= -6 ->
  exists a,
    F64.round (F64.div x CalorieSplitter.ten) = Ok (if s then - a else a)
    /\ 0 <= a
    /\ - (80 * 2 ^ (- ex) + 20) <= 16 * Zpos mx - 160 * a * 2 ^ (- ex)
       <= 80 * 2 ^ (- ex) + 20.
Proof.
  intros Nx He.
  destruct (div_normal x CalorieSplitter.ten s false mx _ ex (-49) Nx ten_normal
              ltac:(lia)) as [m3 [j3 [N3 [Bj3 Bd3]]]].
  rewrite xorb_false_r in N3.
  destruct (round_normal _ _ _ _ N3 ltac:(lia)) as [a [Er [Ha Ba]]].
  exists a. split; [exact Er |]. split; [exact Ha |].
  replace (- (ex - -49 - 53 + j3)) with ((- ex + 4) - j3) in Ba by lia.
  assert (EK : 2 ^ (- ex + 4 - j3) * 2 ^ j3 = 16 * 2 ^ (- ex)).
  { rewrite <- Z.pow_add_r by lia. replace (- ex + 4 - j3 + j3) with (4 + - ex) by lia.
    rewrite Z.pow_add_r by lia. reflexivity. }
  assert (PJ : 1 <= 2 ^ j3 <= 4).
  { split; [apply (pow2_le 0 j3) | apply (pow2_le j3 2)]; lia. }
  assert (PK : 0 < 2 ^ (- ex + 4 - j3)) by (apply pow2_pos; lia).
  assert (PB : 0 < 2 ^ (- ex)) by (apply pow2_pos; lia).
  set (K := 2 ^ (- ex + 4 - j3)) in *. set (J := 2 ^ j3) in *.
  set (B := 2 ^ (- ex)) in *.
  change (Zpos 5629499534213120) with (5 * 2 ^ 50) in Bd3.
  change (2 ^ 53) with (8 * 2 ^ 50) in Bd3.
  assert (Bd : - (5 * J) <= 16 * Zpos mx - 10 * Zpos m3 * J <= 5 * J) by lia.
  assert (Bk : - (5 * (K * J)) <= 10 * Zpos m3 * J - 10 * a * (K * J) <= 5 * (K * J)) by nia.
  rewrite EK in Bk. lia.
Qed.

Lemma scaled_bound (A d : Z) :
  0 < A -> - (201 * A) < d * A < 201 * A -> -200 <= d <= 200.
Proof. intros HA H. nia. Qed.

(** [round(T * pct / 10)] for an integer total below 2^45 and a share
    [pct] that is the double nearest to [P / 40]. *)
Lemma meal_cal_bound (T : Z) (pct : spec_float) (mc : positive) (P delta : Z) :
  0 < T < 2 ^ 45 ->
  normal pct false mc (-54) ->
  40 * Zpos mc = P * 2 ^ 54 + delta -> -64 <= delta <= 64 ->
  exists a,
    CalorieSplitter.meal_cal (NInt T) pct = Ok (a * 10)
    /\ 0 <= a /\ -200 <= 400 * a - P * T <= 200.
Proof.
  intros HT Npct Hc Hdelta.
  destruct T as [| p | p]; try lia.
  destruct (of_Z_pos_exact p ltac:(change (2 ^ 53) with (2 ^ 45 * 256); lia))
    as [m1 [e1 [N1 [Be1 Em1]]]].
  assert (PA : 0 < 2 ^ (- e1)) by (apply pow2_pos; lia).
  assert (HA : 2 ^ 8 <= 2 ^ (- e1)).
  { destruct (Z_le_gt_dec 8 (- e1)) as [H | H]; [apply pow2_le; lia |].
    assert (2 ^ (- e1) <= 2 ^ 7) by (apply pow2_le; lia).
    destruct N1 as [_ [B1 _]]. change (2 ^ 52) with (2 ^ 45 * 2 ^ 7) in B1. nia. }
  assert (He1 : e1 <= -8).
  { destruct (Z_le_gt_dec e1 (-8)) as [H | H]; [assumption |].
    assert (2 ^ (- e1) <= 2 ^ 7) by (apply pow2_le; lia).
    change (2 ^ 8) with 256 in HA. change (2 ^ 7) with 128 in *. lia. }
  destruct (mul_normal _ pct false false m1 mc e1 (-54) N1 Npct ltac:(lia))
    as [m2 [j2 [N2 [Bj2 [Bd2 _]]]]].
  cbn [xorb] in N2.
  destruct (round_div_ten _ false m2 _ N2 ltac:(lia)) as [a [Er [Ha Ba]]].
  exists a.
  split.
  - unfold CalorieSplitter.meal_cal, F64.num_mul_float, F64.to_float, F64.of_int.
    pose proof (proj1 N1) as E1. rewrite E1 in Er |- *. cbn [bind]. rewrite Er. reflexivity.
  - split; [exact Ha |].
    replace (- (e1 + -54 + j2)) with ((- e1 + 54) - j2) in Ba by lia.
    assert (EB : 2 ^ (- e1 + 54 - j2) * 2 ^ j2 = 2 ^ (- e1) * 2 ^ 54).
    { rewrite <- !Z.pow_add_r by lia. f_equal. lia. }
    assert (PJ : 0 < 2 ^ j2 <= 2 ^ 54).
    { split; [apply pow2_pos | apply pow2_le]; lia. }
    assert (PB : 0 < 2 ^ (- e1 + 54 - j2)) by (apply pow2_pos; lia).
    set (A := 2 ^ (- e1)) in *. set (J := 2 ^ j2) in *.
    set (B := 2 ^ (- e1 + 54 - j2)) in *.
    rewrite Em1 in Bd2.
    assert (H2 : - (80 * (B * J) + 20 * J) <= 16 * Zpos m2 * J - 160 * a * (B * J)
                 <= 80 * (B * J) + 20 * J) by nia.
    rewrite EB in H2.
    assert (Hc' : 40 * (Zpos p * A * Zpos mc) = (Zpos p * A * P) * 2 ^ 54 + Zpos p * A * delta).
    { replace (40 * (Zpos p * A * Zpos mc)) with (Zpos p * A * (40 * Zpos mc)) by ring.
      rewrite Hc. ring. }
    assert (Hd : - (64 * (Zpos p * A)) <= Zpos p * A * delta <= 64 * (Zpos p * A)) by nia.
    assert (HTA : Zpos p * A < 2 ^ 45 * A) by nia.
    apply (scaled_bound (A * 2 ^ 54)); [nia |].
    replace ((400 * a - P * Zpos p) * (A * 2 ^ 54))
      with (400 * (a * (A * 2 ^ 54)) - (Zpos p * A * P) * 2 ^ 54) by ring.
    set (X1 := Zpos p * A * Zpos mc) in *. set (X2 := Zpos p * A * P) in *.
    set (X3 := Zpos p * A * delta) in *. set (TA := Zpos p * A) in *.
    replace (160 * a * (A * 2 ^ 54)) with (160 * (a * (A * 2 ^ 54))) in H2 by ring.
    set (Y := a * (A * 2 ^ 54)) in *.
    set (M := Zpos m2 * J) in *.
    replace (16 * Zpos m2 * J) with (16 * M) in H2 by (unfold M; ring).
    replace (2 * Zpos m2 * J) with (2 * M) in Bd2 by (unfold M; ring).
    change (2 ^ 54) with 18014398509481984 in *. change (2 ^ 45) with 35184372088832 in *.
    change (2 ^ 8) with 256 in *.
    lia.
Qed.

Lemma breakfast_pct_normal :
  normal CalorieSplitter.breakfast_pct false 4953959590107546 (-54).
Proof. split; [reflexivity | simpl; lia]. Qed.

Lemma lunch_pct_normal :
  normal CalorieSplitter.lunch_pct false 5854679515581645 (-54).
Proof. split; [reflexivity | simpl; lia]. Qed.

(** [round(R / 2 / 10) * 10] for an integer residual. *)
Lemma snack_cal_bound (R : Z) :
  Z.abs R < 2 ^ 45 ->
  exists k,
    CalorieSplitter.snack_cal_of (NInt R) = Ok (k * 10)
    /\ -10 <= R - 2 * (k * 10) <= 10.
Proof.
  intros HR. destruct (Z.eq_dec R 0) as [-> | Hn].
  - exists 0. split; [vm_compute; reflexivity | lia].
  - destruct (int_truediv_2 R Hn ltac:(change (2 ^ 53) with (2 ^ 45 * 256); lia))
      as [f [m [e [Ef [Nf [Be Em]]]]]].
    assert (PB : 0 < 2 ^ (- e)) by (apply pow2_pos; lia).
    assert (He : e <= -9).
    { destruct (Z_le_gt_dec e (-9)) as [H | H]; [assumption |].
      assert (2 ^ (- e) <= 2 ^ 8) by (apply pow2_le; lia).
      destruct Nf as [_ [B1 _]]. change (2 ^ 52) with (2 ^ 45 * 2 ^ 7) in B1.
      change (2 ^ 8) with (2 * 2 ^ 7) in *. nia. }
    assert (HB : 2 ^ 9 <= 2 ^ (- e)) by (apply pow2_le; lia).
    destruct (round_div_ten f _ m e Nf ltac:(lia)) as [a [Er [Ha Ba]]].
    exists (if R <? 0 then - a else a).
    split.
    + unfold CalorieSplitter.snack_cal_of, F64.num_truediv_int.
      rewrite Ef. cbn [bind]. rewrite Er. reflexivity.
    + set (B := 2 ^ (- e)) in *. change (2 ^ 9) with 512 in HB.
      replace (16 * Zpos m) with (8 * (Z.abs R * B)) in Ba by lia.
      assert (Hs : -10 <= Z.abs R - 20 * a <= 10).
      { assert (- (88 * B) < (8 * Z.abs R - 160 * a) * B < 88 * B) by nia.
        assert (-88 < 8 * Z.abs R - 160 * a < 88) by nia. lia. }
      destruct (Z.ltb_spec R 0); lia.
Qed.

(** ** The calorie allocation *)

Lemma iter_pos_invariant {A : Type} (P : A -> Prop) (f : A -> A) :
  (forall x, P x -> P (f x)) -> forall p x, P x -> P (iter_pos f p x).
Proof.
  intros Hf. induction p as [p IH | p IH |]; intros x Hx; cbn [iter_pos]; auto.
Qed.

Lemma shr_1_nonneg (mrs : shr_record) : 0 <= shr_m mrs -> 0 <= shr_m (shr_1 mrs).
Proof.
  destruct mrs as [m r s]. cbn [shr_m]. intros H.
  destruct m as [| [p | p |] |]; cbn [shr_1 shr_m]; lia.
Qed.

Lemma shr_fexp_nonneg (m e : Z) (l : location) :
  0 <= m -> 0 <= shr_m (fst (shr_fexp F64.prec F64.emax m e l)).
Proof.
  intros Hm. unfold shr_fexp, shr.
  destruct (loc_of_record_of_loc m l) as [_ Em].
  destruct (fexp _ _ _ - e) as [| p | p]; cbn [fst]; try (rewrite Em; assumption).
  apply (iter_pos_invariant (fun mrs => 0 <= shr_m mrs)).
  - exact shr_1_nonneg.
  - rewrite Em. assumption.
Qed.

Lemma round_nearest_even_nonneg (m : Z) (l : location) :
  0 <= m -> 0 <= round_nearest_even m l.
Proof.
  intros Hm. destruct l as [| []]; cbn [round_nearest_even]; try lia.
  destruct (Z.even m); lia.
Qed.

Lemma binary_round_aux_not_nan (s : bool) (mx ex : Z) (lx : location) :
  0 <= mx -> binary_round_aux F64.prec F64.emax s mx ex lx <> S754_nan.
Proof.
  intros Hm. unfold binary_round_aux.
  pose proof (shr_fexp_nonneg mx ex lx Hm) as H1.
  destruct (shr_fexp F64.prec F64.emax mx ex lx) as [mrs' e']. cbn [fst] in H1.
  pose proof (shr_fexp_nonneg _ e' loc_Exact
                (round_nearest_even_nonneg _ (loc_of_shr_record mrs') H1)) as H2.
  destruct (shr_fexp F64.prec F64.emax _ e' loc_Exact) as [mrs'' e'']. cbn [fst] in H2.
  destruct (shr_m mrs'') as [| p | p]; try lia; try discriminate.
  destruct (e'' <=? F64.emax - F64.prec); discriminate.
Qed.

Lemma mul_not_nan (x : spec_float) (sy : bool) (my : positive) (ey : Z) :
  x <> S754_nan -> F64.mul x (S754_finite sy my ey) <> S754_nan.
Proof.
  intros Hx.
  destruct x as [sx | sx | | sx mx ex]; try congruence;
    unfold F64.mul, SFmul; try discriminate.
  apply binary_round_aux_not_nan. lia.
Qed.

Lemma div_not_nan (x : spec_float) (sy : bool) (my : positive) (ey : Z) :
  x <> S754_nan -> F64.div x (S754_finite sy my ey) <> S754_nan.
Proof.
  intros Hx.
  destruct x as [sx | sx | | sx mx ex]; try congruence;
    unfold F64.div, SFdiv; try discriminate.
  unfold SFdiv_core_binary.
  set (m' := match _ with Z.pos _ => _ | _ => _ end).
  assert (Hm' : 0 <= m').
  { unfold m'. destruct (_ - _ - _) as [| p | p]; try lia.
    apply Z.shiftl_nonneg. lia. }
  pose proof (Z_div_mod m' (Zpos my) ltac:(lia)) as Hdm.
  destruct (Z.div_eucl m' (Zpos my)) as [q r]. destruct Hdm as [Eq Hr].
  apply binary_round_aux_not_nan. nia.
Qed.

Lemma round_not_ValueError (f : spec_float) :
  f <> S754_nan -> ~ is_ValueError (F64.round f).
Proof.
  intros Hf [msg H]. destruct f; cbn in H; try discriminate. congruence.
Qed.

Lemma ValueError_Raise_cast {A B : Type} (e : exn) :
  is_ValueError (@Raise A e) -> is_ValueError (@Raise B e).
Proof. intros [msg H]. exists msg. congruence. Qed.

Lemma bind_ValueError {A B : Type} (r : result A) (k : A -> result B) :
  is_ValueError (bind r k) ->
  is_ValueError r \/ exists a, r = Ok a /\ is_ValueError (k a).
Proof.
  destruct r as [a | e]; cbn [bind]; intros H.
  - right. exists a. auto.
  - left. exact (ValueError_Raise_cast e H).
Qed.

Lemma Ok_not_ValueError {A : Type} (a : A) : ~ is_ValueError (Ok a).
Proof. intros [msg H]. discriminate. Qed.

Lemma binary_normalize_not_nan (m e : Z) (sz : bool) :
  binary_normalize F64.prec F64.emax m e sz <> S754_nan.
Proof.
  unfold binary_normalize, binary_round.
  destruct m as [| p | p]; try discriminate;
    destruct (shl_align _ _ _) as [mz ez];
    apply binary_round_aux_not_nan; lia.
Qed.

Lemma of_int_Ok (z : Z) (f : spec_float) :
  F64.of_int z = Ok f -> finite_or_zero f.
Proof.
  unfold F64.of_int, F64.of_Z. intros H.
  pose proof (binary_normalize_not_nan z 0 false) as Hn.
  destruct (binary_normalize F64.prec F64.emax z 0 false);
    try discriminate; try congruence; inversion H; subst; exact I.
Qed.

Lemma of_int_not_ValueError (z : Z) : ~ is_ValueError (F64.of_int z).
Proof.
  unfold F64.of_int. intros [msg H].
  destruct (F64.of_Z z); discriminate.
Qed.

Lemma finite_or_zero_not_nan (f : spec_float) : finite_or_zero f -> f <> S754_nan.
Proof. destruct f; cbn; intros H; try contradiction; discriminate. Qed.

Lemma sub_not_nan (x y : spec_float) :
  x <> S754_nan -> finite_or_zero y -> F64.sub x y <> S754_nan.
Proof.
  intros Hx Hy.
  destruct x as [sx | sx | | sx mx ex], y as [sy | sy | | sy my ey];
    cbn in Hy; try contradiction; try congruence;
    unfold F64.sub, SFsub; try discriminate.
  - destruct sx, sy; discriminate.
  - apply binary_normalize_not_nan.
Qed.

Lemma int_truediv_2_not_ValueError (a : Z) :
  ~ is_ValueError (F64.int_truediv a 2)
  /\ forall f, F64.int_truediv a 2 = Ok f -> f <> S754_nan.
Proof.
  unfold F64.int_truediv.
  destruct a as [| p | p].
  - split; [apply Ok_not_ValueError | intros f H; inversion H; discriminate].
  - destruct (SFdiv_core_binary _ _ _ _ _ _) as [[q e] l] eqn:Ec.
    assert (Hq : 0 <= q).
    { unfold SFdiv_core_binary in Ec.
      set (m' := match _ with Z.pos _ => _ | _ => _ end) in Ec.
      assert (Hm' : 0 <= m').
      { unfold m'. destruct (_ - _ - _) as [| k | k]; try lia.
        apply Z.shiftl_nonneg. lia. }
      pose proof (Z_div_mod m' (Z.abs 2) ltac:(simpl; lia)) as Hdm.
      destruct (Z.div_eucl m' (Z.abs 2)) as [q' r]. destruct Hdm as [Eq Hr].
      inversion Ec; subst. change (Z.abs 2) with 2 in *. nia. }
    pose proof (binary_round_aux_not_nan (xorb (Z.pos p <? 0) (2 <? 0)) q e l Hq) as Hn.
    destruct (binary_round_aux _ _ _ _ _ _); split;
      try (intros [msg H]; discriminate);
      try (intros f H; inversion H; subst; assumption || discriminate).
  - destruct (SFdiv_core_binary _ _ _ _ _ _) as [[q e] l] eqn:Ec.
    assert (Hq : 0 <= q).
    { unfold SFdiv_core_binary in Ec.
      set (m' := match _ with Z.pos _ => _ | _ => _ end) in Ec.
      assert (Hm' : 0 <= m').
      { unfold m'. destruct (_ - _ - _) as [| k | k]; try lia.
        apply Z.shiftl_nonneg. lia. }
      pose proof (Z_div_mod m' (Z.abs 2) ltac:(simpl; lia)) as Hdm.
      destruct (Z.div_eucl m' (Z.abs 2)) as [q' r]. destruct Hdm as [Eq Hr].
      inversion Ec; subst. change (Z.abs 2) with 2 in *. nia. }
    pose proof (binary_round_aux_not_nan (xorb (Z.neg p <? 0) (2 <? 0)) q e l Hq) as Hn.
    destruct (binary_round_aux _ _ _ _ _ _); split;
      try (intros [msg H]; discriminate);
      try (intros f H; inversion H; subst; assumption || discriminate).
Qed.

Lemma to_float_not_nan (a : num) :
  not_nan_num a ->
  ~ is_ValueError (F64.to_float a)
  /\ forall f, F64.to_float a = Ok f -> f <> S754_nan.
Proof.
  destruct a as [z | f]; cbn [not_nan_num F64.to_float]; intros Ha.
  - split; [apply of_int_not_ValueError |].
    intros f H. apply finite_or_zero_not_nan, (of_int_Ok z f H).
  - split; [apply Ok_not_ValueError |]. intros g H. inversion H; subst. assumption.
Qed.

Lemma round_div_ten_not_ValueError (x : spec_float) (k : Z -> Z) :
  x <> S754_nan ->
  ~ is_ValueError (r <- F64.round (F64.div x CalorieSplitter.ten) ;; Ok (k r)).
Proof.
  intros Hx H. apply bind_ValueError in H. destruct H as [H | [r [_ H]]].
  - revert H. apply round_not_ValueError. apply div_not_nan. assumption.
  - revert H. apply Ok_not_ValueError.
Qed.

Lemma meal_cal_not_ValueError (total : num) (sy : bool) (my : positive) (ey : Z) :
  not_nan_num total ->
  ~ is_ValueError (CalorieSplitter.meal_cal total (S754_finite sy my ey)).
Proof.
  intros Ht H. unfold CalorieSplitter.meal_cal, F64.num_mul_float in H.
  destruct (to_float_not_nan total Ht) as [H1 H2].
  destruct (F64.to_float total) as [x | e] eqn:Ex.
  - cbn [bind] in H. revert H. apply round_div_ten_not_ValueError.
    apply mul_not_nan. apply H2. reflexivity.
  - cbn [bind] in H. apply H1. exact (ValueError_Raise_cast e H).
Qed.

Lemma snack_cal_not_ValueError (remaining : num) :
  not_nan_num remaining -> ~ is_ValueError (CalorieSplitter.snack_cal_of remaining).
Proof.
  intros Hr H. unfold CalorieSplitter.snack_cal_of in H.
  destruct remaining as [R | r]; cbn [F64.num_truediv_int not_nan_num] in *.
  - destruct (int_truediv_2_not_ValueError R) as [H1 H2].
    destruct (F64.int_truediv R 2) as [h | e] eqn:Eh.
    + cbn [bind] in H. revert H. apply round_div_ten_not_ValueError.
      apply H2. reflexivity.
    + cbn [bind] in H. apply H1. exact (ValueError_Raise_cast e H).
  - change (F64.of_int 2) with (Ok (S754_finite false 4503599627370496 (-51))) in H.
    cbn [bind] in H. revert H. apply round_div_ten_not_ValueError.
    apply div_not_nan. assumption.
Qed.

Lemma num_sub_int_not_nan (a : num) (z : Z) :
  not_nan_num a ->
  ~ is_ValueError (F64.num_sub_int a z)
  /\ forall r, F64.num_sub_int a z = Ok r -> not_nan_num r.
Proof.
  destruct a as [t | f]; cbn [not_nan_num F64.num_sub_int]; intros Ha.
  - split; [apply Ok_not_ValueError |]. intros r H. inversion H; subst. exact I.
  - destruct (F64.of_int z) as [g | e] eqn:Eg; cbn [bind].
    + split; [apply Ok_not_ValueError |]. intros r H. inversion H; subst.
      cbn [not_nan_num]. apply sub_not_nan; [assumption |]. apply (of_int_Ok z g Eg).
    + split.
      * intros H. apply (of_int_not_ValueError z). rewrite Eg.
        exact (ValueError_Raise_cast e H).
      * intros r H. discriminate.
Qed.

Lemma three_meal_values (T : Z) :
  0 < T < 2 ^ 45 ->
  exists b l,
    meal_cal (NInt T) breakfast_pct = Ok (b * 10)
    /\ meal_cal (NInt T) lunch_pct = Ok (l * 10)
    /\ meal_cal (NInt T) dinner_pct = Ok (b * 10)
    /\ -200 <= 400 * b - 11 * T <= 200
    /\ -200 <= 400 * l - 13 * T <= 200.
Proof.
  intros HT.
  destruct (meal_cal_bound T breakfast_pct _ 11 16 HT breakfast_pct_normal
              ltac:(reflexivity) ltac:(lia)) as [b [Eb [_ Bb]]].
  destruct (meal_cal_bound T lunch_pct _ 13 8 HT lunch_pct_normal
              ltac:(reflexivity) ltac:(lia)) as [l [El [_ Bl]]].
  exists b, l. change dinner_pct with breakfast_pct. auto.
Qed.

(** C2, amended. For every integer total [0 < T < 2^45] and the cadence
    "3 meals", [split_calories] returns breakfast, lunch and dinner values
    that are multiples of 10 and whose sum is within 15 kcal of 87.5% of
    [T] (the three shares are 27.5%, 32.5% and 27.5%):
    [|8 * (b + l + d) - 7 * T| <= 120]. *)
Theorem three_meals_bound (T : Z) :
  0 < T < 2 ^ 45 ->
  exists b l d,
    split_calories (VInt T) "3 meals" = Ok (slots3 b l d)
    /\ (10 | b) /\ (10 | l) /\ (10 | d)
    /\ -120 <= 8 * (b + l + d) - 7 * T <= 120.
Proof.
  intros HT. destruct (three_meal_values T HT) as [b [l [Eb [El [Ed [Bb Bl]]]]]].
  exists (b * 10), (l * 10), (b * 10).
  split.
  - unfold split_calories. cbn [as_number F64.num_le_zero].
    replace (T <=? 0) with false by (symmetry; apply Z.leb_gt; lia).
    change (negb (is_recognized "3 meals")) with false. cbv iota.
    rewrite Eb, El, Ed. reflexivity.
  - repeat split; try (apply Z.divide_factor_r); lia.
Qed.

(** C4, amended. For every integer total [0 < T < 2^45] and the cadence
    "3 meals + 2 snacks", [split_calories] returns equal values for
    [snack_1] and [snack_2], and the sum of the five slots deviates from
    [T] by at most 20 kcal. *)
Theorem five_slots_bound (T : Z) :
  0 < T < 2 ^ 45 ->
  exists b l d s,
    split_calories (VInt T) "3 meals + 2 snacks" = Ok (slots5 b l d s s)
    /\ slot (slots5 b l d s s) "snack_1" = slot (slots5 b l d s s) "snack_2"
    /\ -20 <= T - total_of (slots5 b l d s s) <= 20.
Proof.
  intros HT. destruct (three_meal_values T HT) as [b [l [Eb [El [Ed [Bb Bl]]]]]].
  destruct (snack_cal_bound (T - (b * 10 + l * 10 + b * 10))) as [k [Ek Bk]].
  { change (2 ^ 45) with 35184372088832 in *. lia. }
  exists (b * 10), (l * 10), (b * 10), (k * 10).
  split; [| split].
  - unfold split_calories. cbn [as_number F64.num_le_zero].
    replace (T <=? 0) with false by (symmetry; apply Z.leb_gt; lia).
    change (negb (is_recognized "3 meals + 2 snacks")) with false. cbv iota.
    rewrite Eb, El, Ed. cbn [bind].
    change ("3 meals + 2 snacks" =? "3 meals + 2 snacks")%string with true. cbv iota.
    cbn [F64.num_sub_int bind]. rewrite Ek. reflexivity.
  - reflexivity.
  - cbn [total_of slots5 fold_right snd]. lia.
Qed.

(** C2, as stated, fails: for T = 1000 the three meals are 280, 320 and
    280, which sum to 880, 120 kcal away from the total. *)
Lemma three_meals_1000 :
  split_calories (VInt 1000) "3 meals" = Ok (slots3 280 320 280)
  /\ ~ (-20 <= 1000 - (280 + 320 + 280) <= 20).
Proof. split; [vm_compute; reflexivity | lia]. Qed.

(** C4, as stated for every total, fails for totals beyond the
    precision of a double: for T = 10^30 the five slots miss the total by
    more than 20 kcal. *)
Lemma five_slots_huge :
  split_calories (VInt (10 ^ 30)) "3 meals + 2 snacks"
  = Ok (slots5 275000000000000016023583457280 325000000000000002944065863680
               275000000000000016023583457280 62499999999999983650603008000
               62499999999999983650603008000)
  /\ ~ (-20 <= 10 ^ 30
               - total_of (slots5 275000000000000016023583457280
                                  325000000000000002944065863680
                                  275000000000000016023583457280
                                  62499999999999983650603008000
                                  62499999999999983650603008000) <= 20).
Proof.
  split; [vm_compute; reflexivity |].
  vm_compute. intros [H _]. apply H. reflexivity.
Qed.

Lemma recognized_iff (c : string) :
  is_recognized c = true <-> c = "3 meals"%string \/ c = "3 meals + 2 snacks"%string.
Proof.
  unfold is_recognized. rewrite orb_true_iff, !String.eqb_eq. tauto.
Qed.

Lemma float_pos_cases (f : spec_float) :
  (F64.ltb F64.zero f = true -> F64.leb f F64.zero = false /\ f <> S754_nan)
  /\ (F64.leb f F64.zero = true -> F64.ltb F64.zero f = false)
  /\ (F64.leb f F64.zero = false -> F64.ltb F64.zero f = false -> f = S754_nan).
Proof.
  destruct f as [s | s | | s m e]; try destruct s; cbn;
    repeat split; intros; try discriminate; try reflexivity; auto.
Qed.

Lemma allocation_not_ValueError (total : num) (c : string) :
  not_nan_num total ->
  ~ is_ValueError
      (breakfast_cal <- meal_cal total breakfast_pct ;;
       lunch_cal <- meal_cal total lunch_pct ;;
       dinner_cal <- meal_cal total dinner_pct ;;
       let calorie_distribution := slots3 breakfast_cal lunch_cal dinner_cal in
       if String.eqb c "3 meals + 2 snacks" then
         remaining_cal <-
           F64.num_sub_int total (breakfast_cal + lunch_cal + dinner_cal) ;;
         snack_cal <- snack_cal_of remaining_cal ;;
         Ok (calorie_distribution
               ++ [("snack_1"%string, snack_cal); ("snack_2"%string, snack_cal)])
       else Ok calorie_distribution).
Proof.
  intros Ht H.
  apply bind_ValueError in H. destruct H as [H | [b [_ H]]].
  { revert H. apply (meal_cal_not_ValueError total false 4953959590107546 (-54) Ht). }
  apply bind_ValueError in H. destruct H as [H | [l [_ H]]].
  { revert H. apply (meal_cal_not_ValueError total false 5854679515581645 (-54) Ht). }
  apply bind_ValueError in H. destruct H as [H | [d [_ H]]].
  { revert H. apply (meal_cal_not_ValueError total false 4953959590107546 (-54) Ht). }
  cbv zeta in H.
  destruct (String.eqb c "3 meals + 2 snacks").
  - apply bind_ValueError in H. destruct H as [H | [r [Er H]]].
    { revert H. apply (num_sub_int_not_nan total _ Ht). }
    apply bind_ValueError in H. destruct H as [H | [s [_ H]]].
    { revert H. apply snack_cal_not_ValueError.
      apply (proj2 (num_sub_int_not_nan total _ Ht) r Er). }
    revert H. apply Ok_not_ValueError.
  - revert H. apply Ok_not_ValueError.
Qed.

Lemma nan_meal_cal (pct : spec_float) :
  is_ValueError (meal_cal (NFloat S754_nan) pct).
Proof. eexists. destruct pct; reflexivity. Qed.

(** C5. [split_calories] raises a [ValueError] exactly when the total
    is not a positive number or the cadence is not one of the two
    recognized strings. The two guards yield their error before any slot
    is computed, and a returned mapping always holds all the slots of its
    cadence: no partial mapping is produced. *)
Theorem split_calories_ValueError_iff (total_calories : value) (meal_frequency : string) :
  (is_ValueError (split_calories total_calories meal_frequency)
   <-> ~ positive_number total_calories
       \/ (meal_frequency <> "3 meals"%string
           /\ meal_frequency <> "3 meals + 2 snacks"%string))
  /\ (forall total,
         as_number total_calories = Some total -> F64.num_le_zero total = true ->
         split_calories total_calories meal_frequency = Raise total_error)
  /\ (as_number total_calories = None ->
      split_calories total_calories meal_frequency = Raise total_error)
  /\ (forall total,
         as_number total_calories = Some total -> F64.num_le_zero total = false ->
         is_recognized meal_frequency = false ->
         split_calories total_calories meal_frequency = Raise frequency_error)
  /\ (forall d,
         split_calories total_calories meal_frequency = Ok d ->
         (meal_frequency = "3 meals"%string
          /\ exists b l dn, d = slots3 b l dn)
         \/ (meal_frequency = "3 meals + 2 snacks"%string
             /\ exists b l dn s, d = slots5 b l dn s s)).
Proof.
  refine (conj _ (conj _ (conj _ (conj _ _)))).
  - unfold split_calories, positive_number.
    destruct (as_number total_calories) as [total |].
    2:{ split; [intros _; left; tauto | intros _; eexists; reflexivity]. }
    destruct (F64.num_le_zero total) eqn:Hle.
    { split; [intros _; left | intros _; eexists; reflexivity].
      destruct total as [z | f]; cbn [F64.num_le_zero] in Hle.
      - apply Z.leb_le in Hle. lia.
      - rewrite (proj1 (proj2 (float_pos_cases f)) Hle). discriminate. }
    destruct (is_recognized meal_frequency) eqn:Hrec; cbn [negb].
    2:{ split; [intros _; right | intros _; eexists; reflexivity].
        split; intros ->; discriminate. }
    apply recognized_iff in Hrec.
    split.
    + intros H. left.
      destruct total as [z | f].
      * exfalso. revert H. apply allocation_not_ValueError. exact I.
      * intros Hpos. revert H. apply allocation_not_ValueError.
        apply (proj1 (float_pos_cases f) Hpos).
    + intros [Hn | [H1 H2]]; [| destruct Hrec; contradiction].
      destruct total as [z | f]; cbn [F64.num_le_zero] in Hle.
      * apply Z.leb_gt in Hle. contradiction.
      * destruct (F64.ltb F64.zero f) eqn:Hlt; [contradiction |].
        rewrite (proj2 (proj2 (float_pos_cases f)) Hle Hlt).
        destruct (nan_meal_cal breakfast_pct) as [msg Hm].
        exists msg. rewrite Hm. reflexivity.
  - intros total Ht Hle. unfold split_calories. rewrite Ht, Hle. reflexivity.
  - intros Ht. unfold split_calories. rewrite Ht. reflexivity.
  - intros total Ht Hle Hrec. unfold split_calories. rewrite Ht, Hle, Hrec. reflexivity.
  - intros d. unfold split_calories.
    destruct (as_number total_calories) as [total |]; [| discriminate].
    destruct (F64.num_le_zero total); [discriminate |].
    destruct (is_recognized meal_frequency) eqn:Hrec; cbn [negb]; [| discriminate].
    destruct (meal_cal total breakfast_pct) as [b |]; [| discriminate].
    destruct (meal_cal total lunch_pct) as [l |]; [| discriminate].
    destruct (meal_cal total dinner_pct) as [dn |]; [| discriminate].
    cbn [bind].
    destruct (String.eqb meal_frequency "3 meals + 2 snacks") eqn:Hs.
    + apply String.eqb_eq in Hs.
      destruct (F64.num_sub_int total (b + l + dn)) as [r |]; [| discriminate].
      cbn [bind]. destruct (snack_cal_of r) as [s |]; [| discriminate].
      cbn [bind]. intros H. inversion H; subst d. right. split; [exact Hs |].
      exists b, l, dn, s. reflexivity.
    + apply recognized_iff in Hrec. apply String.eqb_neq in Hs.
      intros H. inversion H; subst d. left.
      split; [tauto |]. exists b, l, dn. reflexivity.
Qed.

(** ** Lists and string sets *)

Section SetFacts.

Lemma mem_In (x : string) (xs : list string) :
  Str.mem x xs = true <-> In x xs.
Proof.
  unfold Str.mem. rewrite existsb_exists. split.
  - intros [y [Hy Heq]]. apply String.eqb_eq in Heq. now subst.
  - intros H. exists x. split; [assumption | apply String.eqb_refl].
Qed.

Lemma to_set_In (x : string) (xs : list string) :
  In x (Str.to_set xs) <-> In x xs.
Proof. unfold Str.to_set. apply nodup_In. Qed.

Lemma inter_In (x : string) (a b : list string) :
  In x (Str.inter a b) <-> In x a /\ In x b.
Proof. unfold Str.inter. rewrite filter_In, mem_In. tauto. Qed.

Lemma truthy_neq (s : string) : Str.truthy s = true <-> s <> EmptyString.
Proof.
  unfold Str.truthy. rewrite negb_true_iff. split.
  - intros H ->. discriminate.
  - intros H. apply String.eqb_neq. assumption.
Qed.

End SetFacts.

(** ** The constraint filter *)

Section ConstraintFilter.
Import DishFilter.

Lemma user_allergy_set_In (u : string) (xs : list value) :
  In (VStr u) xs -> Str.strip u <> EmptyString ->
  In (Str.lower (Str.strip u)) (user_allergy_set xs).
Proof.
  intros Hin Hne. unfold user_allergy_set.
  apply to_set_In, in_flat_map. exists (VStr u). split; [assumption |].
  apply truthy_neq in Hne. rewrite Hne. now left.
Qed.

Lemma dish_allergen_set_In (a : string) (dish : Dish) :
  In a (get (allergy_risks dish) []) ->
  In (Str.lower a) (dish_allergen_set dish).
Proof.
  intros Hin. unfold dish_allergen_set. apply to_set_In, in_map. assumption.
Qed.

Lemma filter_sound (dishes : list Dish) (user_data : User) (dish : Dish) :
  In dish (filter_dishes_by_constraints dishes user_data) ->
  In dish dishes /\ _has_allergy_conflict dish user_data = false.
Proof.
  induction dishes as [| d rest IH]; simpl; [tauto |].
  destruct (_has_allergy_conflict d user_data) eqn:Ha.
  - intros H. apply IH in H. tauto.
  - destruct (_has_dietary_conflict d user_data).
    + intros H. apply IH in H. tauto.
    + destruct (region_mismatch d user_data).
      * intros H. apply IH in H. tauto.
      * intros [-> | H]; [tauto | apply IH in H; tauto].
Qed.

(** C1. No dish returned by [filter_dishes_by_constraints] has an
    allergy tag that equals, ignoring case, a stripped string entry of the
    user's [known_allergies]; and the set intersection the code computes
    for a returned dish is empty. It holds for every catalog and user,
    the empty ones included. *)
Theorem filter_excludes_allergy_conflicts
        (dishes : list Dish) (user_data : User) (dish : Dish) :
  In dish (filter_dishes_by_constraints dishes user_data) ->
  Str.inter (user_allergy_set (get (known_allergies user_data) []))
            (dish_allergen_set dish) = []
  /\ forall a u,
      In a (get (allergy_risks dish) []) ->
      In (VStr u) (get (known_allergies user_data) []) ->
      Str.strip u <> EmptyString ->
      Str.lower a <> Str.lower (Str.strip u).
Proof.
  intros Hin. apply filter_sound in Hin as [_ Hno].
  unfold _has_allergy_conflict, allergy_conflicts in Hno.
  destruct (Str.inter _ _) as [| c cs] eqn:Hi; [| discriminate].
  split; [reflexivity |].
  intros a u Ha Hu Hne Heq.
  assert (Hc : In (Str.lower (Str.strip u))
                  (Str.inter (user_allergy_set (get (known_allergies user_data) []))
                             (dish_allergen_set dish))).
  { apply inter_In. split.
    - now apply user_allergy_set_In.
    - rewrite <- Heq. now apply dish_allergen_set_In. }
  rewrite Hi in Hc. destruct Hc.
Qed.

End ConstraintFilter.

(** ** Selection on an empty candidate set *)

Section Selection.
Import DishFilter.

(** C9. With no candidate for the slot (an empty catalog, no dish of the
    meal type, or every dish of the type removed by the constraints)
    [get_optimal_dish] returns [None] without raising; and
    [find_best_dish] returns [None] without raising when the constraints
    leave no dish. *)
Theorem empty_candidates_give_no_dish
        (rnd : nat) (dishes : list Dish) (user_data : User) (meal : string)
        (target_calories : option Z) (target_protein : option spec_float)
        (top_n : nat) :
  get_optimal_dish rnd [] user_data meal target_calories target_protein top_n
  = Ok None
  /\ find_best_dish rnd [] user_data top_n = Ok None
  /\ (of_meal meal dishes = [] ->
      get_optimal_dish rnd dishes user_data meal target_calories
                       target_protein top_n = Ok None)
  /\ (filter_dishes_by_constraints (of_meal meal dishes) user_data = [] ->
      get_optimal_dish rnd dishes user_data meal target_calories
                       target_protein top_n = Ok None)
  /\ (filter_dishes_by_constraints dishes user_data = [] ->
      find_best_dish rnd dishes user_data top_n = Ok None).
Proof.
  repeat split.
  - unfold get_optimal_dish, get_best_dishes_by_meal_type, of_meal.
    intros H. rewrite H. reflexivity.
  - unfold get_optimal_dish, get_best_dishes_by_meal_type, of_meal.
    intros H. destruct (filter _ dishes); [reflexivity |].
    rewrite H. reflexivity.
  - unfold find_best_dish. intros H. rewrite H. reflexivity.
Qed.

End Selection.

(** ** Concrete allocations *)

Section Scenarios.
Import CalorieSplitter.

(** C3, as stated, fails: the target of the scenario is not 1883, and
    the allocation of 1883 kcal does not give 115 kcal snacks. *)
Lemma scenario_1883_refuted :
  ~ (scenario_target = Ok 1883
     /\ split_calories (VInt 1883) "3 meals + 2 snacks"
        = Ok (slots5 520 610 520 115 115)).
Proof. intros [H _]. vm_compute in H. discriminate. Qed.

(** C3, amended. For weight 70 kg, height 175 cm, age 30, gender Male,
    a sedentary lifestyle and the Maintenance goal the endpoint computes
    the target 1978 kcal (the BMR is 1648.75 and 1648.75 * 1.2 rounds to
    1978); 1978 kcal over "3 meals + 2 snacks" gives 540, 640, 540 and
    130 per snack; and 1883 kcal gives 520, 610, 520 and 120 per snack. *)
Theorem scenario_allocation :
  Api.calculate_bmr (F64.of_Z 70) 175 30 "Male" = Ok (F64.lit 164875 100)
  /\ scenario_target = Ok 1978
  /\ split_calories (VInt 1978) "3 meals + 2 snacks"
     = Ok (slots5 540 640 540 130 130)
  /\ split_calories (VInt 1883) "3 meals + 2 snacks"
     = Ok (slots5 520 610 520 120 120).
Proof. repeat split; vm_compute; reflexivity. Qed.

(** C10. Slot values can be negative: for the total 19 and the cadence
    "3 meals + 2 snacks" each meal rounds up to 10, the residual is -11,
    and both snacks get -10. *)
Theorem negative_snack_at_19 :
  split_calories (VInt 19) "3 meals + 2 snacks" = Ok (slots5 10 10 10 (-10) (-10))
  /\ exists T d s,
      0 < T
      /\ split_calories (VInt T) "3 meals + 2 snacks" = Ok d
      /\ slot d "snack_1" = Some s /\ slot d "snack_2" = Some s /\ s < 0.
Proof.
  split; [vm_compute; reflexivity |].
  exists 19, (slots5 10 10 10 (-10) (-10)), (-10).
  repeat split; vm_compute; reflexivity.
Qed.

End Scenarios.

(** ** The factors of the score *)

Section ScoreFactors.




(** *** The band test against exact values *)







(** *** Every quotient is a valid double *)





















End ScoreFactors.

(** ** Further facts on the model *)

Section ModelFacts.

Lemma prefix_spec (n h : string) :
  String.prefix n h = true <-> exists post, h = (n ++ post)%string.
Proof.
  revert h. induction n as [| a n IH]; intros h; cbn [String.append].
  - split; [intros _; exists h; reflexivity | destruct h; reflexivity].
  - destruct h as [| b h]; cbn [String.prefix].
    + split; [discriminate | intros [post H]; discriminate].
    + destruct (ascii_dec a b) as [-> | Hne].
      * rewrite IH. split; intros [post H]; exists post; congruence.
      * split; [discriminate | intros [post H]; congruence].
Qed.

(** [Str.contains] is the substring test. *)
Lemma contains_spec (n h : string) :
  Str.contains n h = true <-> exists pre post, h = (pre ++ n ++ post)%string.
Proof.
  induction h as [| b h IH]; cbn [Str.contains]; rewrite orb_true_iff, prefix_spec.
  - split.
    + intros [[post H] | H]; [| discriminate]. exists EmptyString, post. exact H.
    + intros [pre [post H]]. left. destruct pre; [| discriminate].
      exists post. exact H.
  - rewrite IH. split.
    + intros [[post H] | [pre [post H]]].
      * exists EmptyString, post. exact H.
      * exists (String b pre), post. cbn [String.append]. congruence.
    + intros [pre [post H]]. destruct pre as [| c pre].
      * left. exists post. exact H.
      * right. cbn [String.append] in H. exists pre, post. congruence.
Qed.

Lemma meal_cal_multiple_of_10 (total : num) (pct : spec_float) (v : Z) :
  meal_cal total pct = Ok v -> (10 | v).
Proof.
  unfold meal_cal. destruct (F64.num_mul_float total pct) as [x |]; [| discriminate].
  cbn [bind]. destruct (F64.round _) as [r |]; [| discriminate].
  cbn [bind]. intros H. inversion H. apply Z.divide_factor_r.
Qed.

Lemma snack_cal_multiple_of_10 (remaining : num) (v : Z) :
  snack_cal_of remaining = Ok v -> (10 | v).
Proof.
  unfold snack_cal_of. destruct (F64.num_truediv_int remaining 2) as [x |]; [| discriminate].
  cbn [bind]. destruct (F64.round _) as [r |]; [| discriminate].
  cbn [bind]. intros H. inversion H. apply Z.divide_factor_r.
Qed.

(** Whatever the total (an [int], a [bool] or a [float]), every slot of a
    returned mapping is a multiple of 10. *)
Lemma split_calories_multiples_of_10 (total_calories : value) (meal_frequency : string)
      (d : distribution) :
  split_calories total_calories meal_frequency = Ok d ->
  Forall (fun kv => (10 | snd kv)) d.
Proof.
  unfold split_calories.
  destruct (as_number total_calories) as [total |]; [| discriminate].
  destruct (F64.num_le_zero total); [discriminate |].
  destruct (negb (is_recognized meal_frequency)); [discriminate |].
  destruct (meal_cal total breakfast_pct) as [b |] eqn:Eb; [| discriminate].
  destruct (meal_cal total lunch_pct) as [l |] eqn:El; [| discriminate].
  destruct (meal_cal total dinner_pct) as [dn |] eqn:Ed; [| discriminate].
  cbn [bind].
  apply meal_cal_multiple_of_10 in Eb, El, Ed.
  destruct (String.eqb meal_frequency "3 meals + 2 snacks").
  - destruct (F64.num_sub_int total (b + l + dn)) as [r |]; [| discriminate].
    cbn [bind]. destruct (snack_cal_of r) as [s |] eqn:Es; [| discriminate].
    cbn [bind]. apply snack_cal_multiple_of_10 in Es.
    intros H. inversion H. repeat constructor; assumption.
  - intros H. inversion H. repeat constructor; assumption.
Qed.

(** The substring sought in a dish tag is the user's time tag itself, not
    the meal type that [meal_type_mapping] gives for it. *)
Example meal_timing_matches_time_tag :
  timing_matches ["morning"]%string ["breakfast"; "Morning meal"]%string
  = ["Morning meal"]%string.
Proof. reflexivity. Qed.

End ModelFacts.

(** ** Instances on sample data *)

Section Witnesses.

Lemma filter_excludes_witness :
  filter_dishes_by_constraints [dish_nutty; dish_plain] sample_user = [dish_plain]
  /\ Str.inter (user_allergy_set (get (known_allergies sample_user) []))
               (dish_allergen_set dish_plain) = [].
Proof.
  split; [reflexivity |].
  apply (filter_excludes_allergy_conflicts [dish_nutty; dish_plain] sample_user dish_plain).
  vm_compute. left. reflexivity.
Defined.

Lemma three_meals_witness :
  exists b l d,
    split_calories (VInt 2000) "3 meals" = Ok (slots3 b l d)
    /\ (10 | b) /\ (10 | l) /\ (10 | d)
    /\ -120 <= 8 * (b + l + d) - 7 * 2000 <= 120.
Proof. apply (three_meals_bound 2000). vm_compute. split; reflexivity. Defined.

Lemma five_slots_witness :
  exists b l d s,
    split_calories (VInt 2000) "3 meals + 2 snacks" = Ok (slots5 b l d s s)
    /\ slot (slots5 b l d s s) "snack_1" = slot (slots5 b l d s s) "snack_2"
    /\ -20 <= 2000 - total_of (slots5 b l d s s) <= 20.
Proof. apply (five_slots_bound 2000). vm_compute. split; reflexivity. Defined.

Lemma empty_candidates_witness :
  get_optimal_dish 0 [dish_nutty] sample_user "breakfast" None None 3 = Ok None
  /\ find_best_dish 0 [dish_nutty] sample_user 5 = Ok None
  /\ get_optimal_dish 0 [dish_nutty; dish_plain] sample_user "dinner" None None 3
     = Ok None.
Proof.
  pose proof (empty_candidates_give_no_dish 0 [dish_nutty] sample_user "breakfast"
                None None 3) as [_ [_ [_ [H1 _]]]].
  pose proof (empty_candidates_give_no_dish 0 [dish_nutty] sample_user "breakfast"
                None None 5) as [_ [_ [_ [_ H2]]]].
  pose proof (empty_candidates_give_no_dish 0 [dish_nutty; dish_plain] sample_user
                "dinner" None None 3) as [_ [_ [H3 _]]].
  split; [apply H1; reflexivity |].
  split; [apply H2; reflexivity | apply H3; reflexivity].
Defined.




End Witnesses.

(** * Further properties *)

(** ** The constraint filter as a whole *)

Lemma filter_dishes_as_filter (dishes : list Dish) (user_data : User) :
  filter_dishes_by_constraints dishes user_data
  = filter (passes_constraints user_data) dishes.
Proof.
  induction dishes as [| d rest IH]; [reflexivity |].
  cbn [filter_dishes_by_constraints filter]. unfold passes_constraints at 1.
  destruct (_has_allergy_conflict d user_data); [exact IH |].
  destruct (_has_dietary_conflict d user_data); [exact IH |].
  destruct (region_mismatch d user_data); [exact IH |].
  cbn [negb andb]. rewrite IH. reflexivity.
Qed.

Lemma filter_dishes_In (dishes : list Dish) (user_data : User) (dish : Dish) :
  In dish (filter_dishes_by_constraints dishes user_data)
  <-> In dish dishes
      /\ _has_allergy_conflict dish user_data = false
      /\ _has_dietary_conflict dish user_data = false
      /\ region_mismatch dish user_data = false.
Proof.
  rewrite filter_dishes_as_filter, filter_In. unfold passes_constraints.
  rewrite !andb_true_iff, !negb_true_iff. tauto.
Qed.

(** X1. A dish is in the result of [filter_dishes_by_constraints] exactly
    when it is in the input and none of the three tests of the loop (allergy
    conflict, dietary conflict, region mismatch) hits it. *)
Theorem filter_membership (dishes : list Dish) (user_data : User) (dish : Dish) :
  In dish (filter_dishes_by_constraints dishes user_data)
  <-> In dish dishes
      /\ _has_allergy_conflict dish user_data = false
      /\ _has_dietary_conflict dish user_data = false
      /\ region_mismatch dish user_data = false.
Proof. apply filter_dishes_In. Qed.

Lemma filter_filter_same {A : Type} (p : A -> bool) (l : list A) :
  filter p (filter p l) = filter p l.
Proof.
  induction l as [| x l IH]; [reflexivity |]. cbn [filter].
  destruct (p x) eqn:Hp; [| exact IH]. cbn [filter]. rewrite Hp, IH. reflexivity.
Qed.

(** X2. Filtering twice is filtering once, filtering a concatenation is
    filtering its parts, and the result is never longer than the input. *)
Theorem filter_composes (a b : list Dish) (user_data : User) :
  filter_dishes_by_constraints (filter_dishes_by_constraints a user_data) user_data
  = filter_dishes_by_constraints a user_data
  /\ filter_dishes_by_constraints (a ++ b) user_data
     = filter_dishes_by_constraints a user_data
       ++ filter_dishes_by_constraints b user_data
  /\ (List.length (filter_dishes_by_constraints a user_data) <= List.length a)%nat.
Proof.
  rewrite !filter_dishes_as_filter. split; [apply filter_filter_same |].
  split; [apply filter_app | apply filter_length_le].
Qed.

(** X3. For a user whose lowered [dietary_strictness] is ["vegan"] or
    ["vegetarian"], no dish of the result carries the diet tag
    ["non-vegetarian"] in any letter case. *)
Theorem filter_excludes_non_vegetarian
        (dishes : list Dish) (user_data : User) (dish : Dish) (tag : string) :
  In dish (filter_dishes_by_constraints dishes user_data) ->
  Str.lower (get (dietary_strictness user_data) EmptyString) = "vegan"%string
  \/ Str.lower (get (dietary_strictness user_data) EmptyString) = "vegetarian"%string ->
  In tag (get (diet_tags dish) []) ->
  Str.lower tag <> "non-vegetarian"%string.
Proof.
  intros Hin Hdiet Htag Heq.
  apply filter_dishes_In in Hin. destruct Hin as [_ [_ [Hd _]]].
  unfold _has_dietary_conflict in Hd.
  assert (Hm : Str.mem "non-vegetarian" (map Str.lower (get (diet_tags dish) [])) = true).
  { apply mem_In. rewrite <- Heq. apply in_map. exact Htag. }
  destruct Hdiet as [E | E]; rewrite E in Hd; cbn [lookup String.eqb Ascii.eqb Bool.eqb] in Hd;
    congruence.
Qed.

(** X4. When the user has a non-empty [Region], every dish of the result
    has that region, compared in lower case. *)
Theorem filter_keeps_region
        (dishes : list Dish) (user_data : User) (dish : Dish) :
  In dish (filter_dishes_by_constraints dishes user_data) ->
  Str.lower (get (Region user_data) EmptyString) <> EmptyString ->
  Str.lower (get (region dish) EmptyString)
  = Str.lower (get (Region user_data) EmptyString).
Proof.
  intros Hin Hne.
  apply filter_dishes_In in Hin. destruct Hin as [_ [_ [_ Hr]]].
  unfold region_mismatch in Hr. apply truthy_neq in Hne. rewrite Hne in Hr.
  cbn [andb] in Hr. apply negb_false_iff, String.eqb_eq in Hr. exact Hr.
Qed.

(** X5. A dish that the hard dietary test rejects has a dietary
    compatibility of at most -2: the soft score never rewards what the
    filter excludes. *)
Theorem hard_dietary_conflict_is_penalised (dish : Dish) (user_data : User) :
  _has_dietary_conflict dish user_data = true ->
  _calculate_dietary_compatibility dish user_data <= -2.
Proof.
  unfold _has_dietary_conflict, _calculate_dietary_compatibility, dietary_conflicts.
  set (tags := map Str.lower (get (diet_tags dish) [])).
  set (ud := Str.lower (get (dietary_strictness user_data) EmptyString)).
  intros H.
  destruct (String.eqb_spec "vegan" ud) as [E | N1].
  - rewrite <- E in *. cbn [lookup String.eqb Ascii.eqb Bool.eqb] in *.
    cbn [existsb]. rewrite H. cbn [orb]. destruct (Str.mem "vegan" tags); lia.
  - destruct (String.eqb_spec "vegetarian" ud) as [E | N2].
    + rewrite <- E in *. cbn [lookup String.eqb Ascii.eqb Bool.eqb] in *.
      cbn [existsb]. rewrite H. cbn [orb]. destruct (Str.mem "vegetarian" tags); lia.
    + exfalso. cbn [lookup] in H.
      apply String.eqb_neq in N1, N2. rewrite N1, N2 in H. discriminate.
Qed.

(** ** The ranking *)

Lemma ltb_key (f g : spec_float) :
  f <> S754_nan -> g <> S754_nan ->
  (F64.ltb f g = true <-> lex_lt (order_key f) (order_key g)).
Proof.
  intros Hf Hg.
  destruct f as [s1 | s1 | | s1 m1 e1]; try congruence;
    destruct g as [s2 | s2 | | s2 m2 e2]; try congruence;
    destruct s1, s2; unfold F64.ltb, SFltb, SFcompare, lex_lt, order_key;
    try (split; [discriminate | lia]);
    try (split; [lia | reflexivity]);
    try (split; [intros _; lia | intros _; reflexivity]).
  - change (Pos.compare_cont Eq m1 m2) with (Pos.compare m1 m2).
    destruct (Z.compare_spec e1 e2); try destruct (Pos.compare_spec m1 m2);
      cbn [CompOpp]; split; intros H'; try discriminate; try reflexivity; try lia.
  - change (Pos.compare_cont Eq m1 m2) with (Pos.compare m1 m2).
    destruct (Z.compare_spec e1 e2); try destruct (Pos.compare_spec m1 m2);
      split; intros H'; try discriminate; try reflexivity; try lia.
Qed.

Lemma ltb_asym (f g : spec_float) : F64.ltb f g = true -> F64.ltb g f = false.
Proof.
  intros H.
  assert (Hf : f <> S754_nan) by (intros ->; discriminate).
  assert (Hg : g <> S754_nan) by (intros ->; destruct f; discriminate).
  apply (ltb_key f g Hf Hg) in H.
  destruct (F64.ltb g f) eqn:E; [| reflexivity].
  apply (ltb_key g f Hg Hf) in E. exfalso.
  unfold lex_lt in *. destruct (order_key f) as [[a1 b1] c1], (order_key g) as [[a2 b2] c2].
  lia.
Qed.

Lemma not_ltb_trans (f g h : spec_float) :
  f <> S754_nan -> g <> S754_nan -> h <> S754_nan ->
  F64.ltb f g = false -> F64.ltb g h = false -> F64.ltb f h = false.
Proof.
  intros Hf Hg Hh H1 H2.
  destruct (F64.ltb f h) eqn:E; [| reflexivity]. exfalso.
  apply (ltb_key f h Hf Hh) in E.
  assert (N1 : ~ lex_lt (order_key f) (order_key g))
    by (rewrite <- (ltb_key f g Hf Hg); congruence).
  assert (N2 : ~ lex_lt (order_key g) (order_key h))
    by (rewrite <- (ltb_key g h Hg Hh); congruence).
  unfold lex_lt in *.
  destruct (order_key f) as [[a1 b1] c1], (order_key g) as [[a2 b2] c2],
    (order_key h) as [[a3 b3] c3].
  lia.
Qed.

Lemma insert_desc_perm (x : Dish * spec_float) (l : list (Dish * spec_float)) :
  Permutation (insert_desc x l) (x :: l).
Proof.
  induction l as [| y l IH]; cbn [insert_desc]; [apply Permutation_refl |].
  destruct (F64.ltb (snd x) (snd y)); [| apply Permutation_refl].
  eapply Permutation_trans; [apply perm_skip, IH | apply perm_swap].
Qed.

Lemma sort_desc_perm (l : list (Dish * spec_float)) : Permutation (sort_desc l) l.
Proof.
  induction l as [| x l IH]; [apply Permutation_refl |].
  unfold sort_desc in *. cbn [fold_right].
  eapply Permutation_trans; [apply insert_desc_perm | apply perm_skip, IH].
Qed.

Lemma insert_desc_sorted (x : Dish * spec_float) (l : list (Dish * spec_float)) :
  Sorted not_below l -> Sorted not_below (insert_desc x l).
Proof.
  induction l as [| y l IH]; intros Hs; cbn [insert_desc].
  - repeat constructor.
  - destruct (F64.ltb (snd x) (snd y)) eqn:E.
    + inversion Hs as [| ? ? Hs' Hhd]; subst.
      constructor; [apply IH; assumption |].
      destruct l as [| z l]; cbn [insert_desc].
      * constructor. apply ltb_asym. exact E.
      * destruct (F64.ltb (snd x) (snd z)).
        -- inversion Hhd; subst. constructor. assumption.
        -- constructor. apply ltb_asym. exact E.
    + constructor; [assumption |]. constructor. exact E.
Qed.

Lemma sort_desc_sorted (l : list (Dish * spec_float)) : Sorted not_below (sort_desc l).
Proof.
  induction l as [| x l IH]; [constructor |].
  unfold sort_desc in *. cbn [fold_right]. apply insert_desc_sorted. exact IH.
Qed.

Lemma sort_desc_fixed (l : list (Dish * spec_float)) :
  Sorted not_below l -> sort_desc l = l.
Proof.
  induction l as [| x l IH]; intros Hs; [reflexivity |].
  inversion Hs as [| ? ? Hs' Hhd]; subst.
  unfold sort_desc in *. cbn [fold_right]. rewrite (IH Hs').
  destruct l as [| y l]; [reflexivity |]. cbn [insert_desc].
  inversion Hhd as [| ? ? Hxy]; subst. unfold not_below in Hxy. rewrite Hxy. reflexivity.
Qed.

Lemma insert_desc_strongly (x : Dish * spec_float) (l : list (Dish * spec_float)) :
  score_is_number x -> Forall score_is_number l ->
  StronglySorted not_below l -> StronglySorted not_below (insert_desc x l).
Proof.
  intros Hx. induction l as [| y l IH]; intros Hn Hs; cbn [insert_desc].
  - repeat constructor.
  - inversion Hn as [| ? ? Hy Hn']; subst.
    inversion Hs as [| ? ? Hs' Hall]; subst.
    destruct (F64.ltb (snd x) (snd y)) eqn:E.
    + constructor; [apply IH; assumption |].
      apply Forall_forall. intros z Hz.
      apply (Permutation_in _ (insert_desc_perm x l)) in Hz.
      destruct Hz as [<- | Hz].
      * apply ltb_asym. exact E.
      * rewrite Forall_forall in Hall. apply Hall. exact Hz.
    + constructor; [assumption |].
      constructor; [exact E |].
      apply Forall_forall. intros z Hz.
      rewrite Forall_forall in Hall, Hn'.
      apply (not_ltb_trans (snd x) (snd y) (snd z)); auto.
      * apply Hn'. exact Hz.
      * apply Hall. exact Hz.
Qed.

Lemma sort_desc_strongly (l : list (Dish * spec_float)) :
  Forall score_is_number l -> StronglySorted not_below (sort_desc l).
Proof.
  induction l as [| x l IH]; intros Hn; [constructor |].
  inversion Hn as [| ? ? Hx Hn']; subst.
  unfold sort_desc in *. cbn [fold_right]. apply insert_desc_strongly; auto.
  apply Forall_forall. intros z Hz.
  apply (Permutation_in _ (sort_desc_perm l)) in Hz.
  rewrite Forall_forall in Hn'. apply Hn'. exact Hz.
Qed.

Lemma strongly_sorted_app (l1 l2 : list (Dish * spec_float)) :
  StronglySorted not_below (l1 ++ l2) ->
  forall x y, In x l1 -> In y l2 -> not_below x y.
Proof.
  induction l1 as [| a l1 IH]; intros Hs x y Hx Hy; [destruct Hx |].
  cbn [app] in Hs. inversion Hs as [| ? ? Hs' Hall]; subst.
  destruct Hx as [<- | Hx].
  - rewrite Forall_forall in Hall. apply Hall. apply in_or_app. right. exact Hy.
  - apply (IH Hs' x y Hx Hy).
Qed.

(** X6. On scores without NaN, [sort(key=score, reverse=True)] permutes
    its input, leaves no element before one of a higher score, and leaves
    a list already in that order as it is. *)
Theorem sort_desc_ranks (l : list (Dish * spec_float)) :
  Forall score_is_number l ->
  Permutation (sort_desc l) l
  /\ StronglySorted not_below (sort_desc l)
  /\ (Sorted not_below l -> sort_desc l = l).
Proof.
  intros Hn. split; [apply sort_desc_perm |].
  split; [apply sort_desc_strongly; exact Hn | apply sort_desc_fixed].
Qed.

(** X7. On scores without NaN, no dish among the first [n] of the ranking
    has a lower score than a dish after them. *)
Theorem top_n_are_best (l : list (Dish * spec_float)) (n : nat)
        (x y : Dish * spec_float) :
  Forall score_is_number l ->
  In x (firstn n (sort_desc l)) ->
  In y (skipn n (sort_desc l)) ->
  F64.ltb (snd x) (snd y) = false.
Proof.
  intros Hn Hx Hy.
  apply (strongly_sorted_app (firstn n (sort_desc l)) (skipn n (sort_desc l))); auto.
  rewrite firstn_skipn. apply sort_desc_strongly. exact Hn.
Qed.

(** ** Selection *)

Lemma score_all_fst (dishes : list Dish) (user_data : User)
      (tc : option Z) (tp : option spec_float) (scored : list (Dish * spec_float)) :
  score_all dishes user_data tc tp = Ok scored -> map fst scored = dishes.
Proof.
  revert scored. induction dishes as [| d rest IH]; intros scored H; cbn [score_all] in H.
  - inversion H. reflexivity.
  - destruct (calculate_comprehensive_score d user_data tc tp) as [s |]; [| discriminate].
    cbn [bind] in H.
    destruct (score_all rest user_data tc tp) as [sc |]; [| discriminate].
    cbn [bind] in H. inversion H. cbn [map fst]. rewrite (IH sc eq_refl). reflexivity.
Qed.

Lemma ranked_subset (scored : list (Dish * spec_float)) (n : nat) (d : Dish) :
  In d (map fst (firstn n (sort_desc scored))) -> In d (map fst scored).
Proof.
  intros H. apply in_map_iff in H. destruct H as [x [<- Hx]].
  apply in_map. apply (Permutation_in _ (sort_desc_perm scored)).
  rewrite <- (firstn_skipn n (sort_desc scored)). apply in_or_app. left. exact Hx.
Qed.

Lemma ranked_length (scored : list (Dish * spec_float)) (n : nat) :
  List.length (map fst (firstn n (sort_desc scored)))
  = Nat.min n (List.length scored).
Proof.
  rewrite length_map, length_firstn.
  rewrite (Permutation_length (sort_desc_perm scored)). reflexivity.
Qed.

Lemma of_meal_In (meal : string) (dishes : list Dish) (d : Dish) :
  In d (of_meal meal dishes) <-> In d dishes /\ has_meal_type meal d.
Proof.
  unfold of_meal, has_meal_type. rewrite filter_In, String.eqb_eq. tauto.
Qed.

Lemma best_dishes_sound
        (dishes : list Dish) (user_data : User) (meal : string)
        (tc : option Z) (tp : option spec_float) (top_n : nat) (out : list Dish) :
  get_best_dishes_by_meal_type dishes user_data meal tc tp top_n = Ok out ->
  (List.length out <= top_n)%nat
  /\ (List.length out <= List.length dishes)%nat
  /\ forall d, In d out -> acceptable dishes user_data d /\ has_meal_type meal d.
Proof.
  unfold get_best_dishes_by_meal_type. fold (of_meal meal dishes).
  destruct (of_meal meal dishes) as [| m ms] eqn:Em.
  { intros H. inversion H. cbn. repeat split; try lia; contradiction. }
  destruct (filter_dishes_by_constraints (m :: ms) user_data) as [| f fs] eqn:Ef.
  { intros H. inversion H. cbn. repeat split; try lia; contradiction. }
  destruct (score_all (f :: fs) user_data tc tp) as [scored |] eqn:Es; [| discriminate].
  cbn [bind]. intros H. inversion H; subst out. clear H.
  pose proof (score_all_fst _ _ _ _ _ Es) as Hfst.
  assert (Hlen : List.length scored = List.length (f :: fs))
    by (rewrite <- Hfst, length_map; reflexivity).
  assert (Hfl : (List.length (f :: fs) <= List.length (m :: ms))%nat).
  { rewrite <- Ef. rewrite filter_dishes_as_filter. apply filter_length_le. }
  assert (Hml : (List.length (m :: ms) <= List.length dishes)%nat).
  { rewrite <- Em. unfold of_meal. apply filter_length_le. }
  rewrite ranked_length.
  split; [lia |]. split; [lia |].
  intros d Hd. apply ranked_subset in Hd. rewrite Hfst, <- Ef in Hd.
  apply filter_dishes_In in Hd. destruct Hd as [Hin Hc].
  rewrite <- Em in Hin. apply of_meal_In in Hin. destruct Hin as [Hin Hm].
  split; [split; assumption | assumption].
Qed.

(** X8. For a [top_n] that is not negative (a [nat] here),
    [get_best_dishes_by_meal_type] returns at most [top_n] dishes, no more
    than the catalog holds, each one from the catalog, of the requested
    meal type in lower case, and free of the three hard conflicts. *)
Theorem best_dishes_are_acceptable
        (dishes : list Dish) (user_data : User) (meal : string)
        (tc : option Z) (tp : option spec_float) (top_n : nat) (out : list Dish) :
  get_best_dishes_by_meal_type dishes user_data meal tc tp top_n = Ok out ->
  (List.length out <= top_n)%nat
  /\ (List.length out <= List.length dishes)%nat
  /\ forall d, In d out -> acceptable dishes user_data d /\ has_meal_type meal d.
Proof. apply best_dishes_sound. Qed.

Lemma random_choice_In {A : Type} (rnd : nat) (seq : list A) (a : A) :
  random_choice rnd seq = Some a -> In a seq.
Proof. unfold random_choice. apply nth_error_In. Qed.

Lemma random_choice_some {A : Type} (rnd : nat) (seq : list A) :
  seq <> [] -> exists a, random_choice rnd seq = Some a.
Proof.
  intros Hne. unfold random_choice.
  destruct (nth_error seq (rnd mod List.length seq)%nat) as [a |] eqn:E; [eauto |].
  apply nth_error_None in E. destruct seq as [| x xs]; [congruence |].
  pose proof (Nat.mod_upper_bound rnd (List.length (x :: xs)) ltac:(cbn; lia)). lia.
Qed.

Lemma optimal_dish_sound
        (rnd : nat) (dishes : list Dish) (user_data : User) (meal : string)
        (tc : option Z) (tp : option spec_float) (top_n : nat) (d : Dish) :
  get_optimal_dish rnd dishes user_data meal tc tp top_n = Ok (Some d) ->
  acceptable dishes user_data d /\ has_meal_type meal d.
Proof.
  unfold get_optimal_dish.
  destruct (get_best_dishes_by_meal_type dishes user_data meal tc tp top_n)
    as [out |] eqn:E; [| discriminate].
  cbn [bind]. destruct out as [| o os]; [discriminate |].
  intros H. inversion H as [Hc]. apply random_choice_In in Hc.
  apply (proj2 (proj2 (best_dishes_sound _ _ _ _ _ _ _ E))). exact Hc.
Qed.

(** X9. A dish returned by [get_optimal_dish] is from the catalog, of the
    requested meal type, and free of the three hard conflicts, whatever
    the random draw. *)
Theorem optimal_dish_is_acceptable
        (rnd : nat) (dishes : list Dish) (user_data : User) (meal : string)
        (tc : option Z) (tp : option spec_float) (top_n : nat) (d : Dish) :
  get_optimal_dish rnd dishes user_data meal tc tp top_n = Ok (Some d) ->
  acceptable dishes user_data d /\ has_meal_type meal d.
Proof. apply optimal_dish_sound. Qed.

(** X10. A dish returned by [find_best_dish] is from the catalog and free
    of the three hard conflicts, whatever the random draw. *)
Theorem best_dish_is_acceptable
        (rnd : nat) (dishes : list Dish) (user : User) (top_n : nat) (d : Dish) :
  find_best_dish rnd dishes user top_n = Ok (Some d) ->
  acceptable dishes user d.
Proof.
  unfold find_best_dish.
  destruct (filter_dishes_by_constraints dishes user) as [| f fs] eqn:Ef; [discriminate |].
  destruct (score_all (f :: fs) user None _) as [scored |] eqn:Es; [| discriminate].
  cbn [bind].
  destruct (map fst (firstn top_n (sort_desc scored))) as [| o os] eqn:Eo; [discriminate |].
  intros H. inversion H as [Hc]. apply random_choice_In in Hc.
  rewrite <- Eo in Hc. apply ranked_subset in Hc.
  rewrite (score_all_fst _ _ _ _ _ Es), <- Ef in Hc.
  apply filter_dishes_In in Hc. exact Hc.
Qed.

(** X11. When some dish of the meal type passes the filter, scoring does
    not raise and [randomize_top_n] is positive, [get_optimal_dish] returns
    a dish and not [None]. *)
Theorem candidates_give_a_dish
        (rnd : nat) (dishes : list Dish) (user_data : User) (meal : string)
        (tc : option Z) (tp : option spec_float) (top_n : nat)
        (scored : list (Dish * spec_float)) :
  filter_dishes_by_constraints (of_meal meal dishes) user_data <> [] ->
  score_all (filter_dishes_by_constraints (of_meal meal dishes) user_data)
            user_data tc tp = Ok scored ->
  (0 < top_n)%nat ->
  exists d, get_optimal_dish rnd dishes user_data meal tc tp top_n = Ok (Some d).
Proof.
  intros Hne Hs Hn. unfold get_optimal_dish, get_best_dishes_by_meal_type.
  fold (of_meal meal dishes).
  destruct (of_meal meal dishes) as [| m ms] eqn:Em; [cbn in Hne; congruence |].
  destruct (filter_dishes_by_constraints (m :: ms) user_data) as [| f fs] eqn:Ef;
    [congruence |].
  rewrite Hs. cbn [bind].
  pose proof (ranked_length scored top_n) as Hl.
  pose proof (score_all_fst _ _ _ _ _ Hs) as Hfst.
  assert (Hlen : List.length scored = S (List.length fs))
    by (rewrite <- (length_map fst), Hfst; reflexivity).
  destruct (map fst (firstn top_n (sort_desc scored))) as [| o os] eqn:Eo.
  { cbn [List.length] in Hl. lia. }
  destruct (random_choice_some rnd (o :: os) ltac:(discriminate)) as [a Ha].
  exists a. rewrite Ha. reflexivity.
Qed.

(** ** What the score depends on *)

Lemma caloric_alignment_ignores_value
      (total_score : spec_float) (dish : Dish) (a b : Z) :
  a <> 0 -> b <> 0 ->
  add_caloric_alignment total_score dish (Some a)
  = add_caloric_alignment total_score dish (Some b).
Proof.
  intros Ha Hb. unfold add_caloric_alignment.
  destruct (lookup "caloric_density" (get (attribute_rankings dish) [])); [| reflexivity].
  apply Z.eqb_neq in Ha, Hb. rewrite Ha, Hb. reflexivity.
Qed.

Lemma caloric_alignment_zero_target (total_score : spec_float) (dish : Dish) :
  add_caloric_alignment total_score dish (Some 0)
  = add_caloric_alignment total_score dish None.
Proof.
  unfold add_caloric_alignment.
  destruct (lookup "caloric_density" (get (attribute_rankings dish) [])); reflexivity.
Qed.

Lemma score_all_ext (dishes : list Dish) (user_data : User)
      (tc tc' : option Z) (tp : option spec_float) :
  (forall d, calculate_comprehensive_score d user_data tc tp
             = calculate_comprehensive_score d user_data tc' tp) ->
  score_all dishes user_data tc tp = score_all dishes user_data tc' tp.
Proof.
  intros H. induction dishes as [| d rest IH]; [reflexivity |].
  cbn [score_all]. rewrite H, IH. reflexivity.
Qed.

Lemma score_ignores_calorie_value (d : Dish) (user_data : User) (a b : Z)
      (tp : option spec_float) :
  a <> 0 -> b <> 0 ->
  calculate_comprehensive_score d user_data (Some a) tp
  = calculate_comprehensive_score d user_data (Some b) tp.
Proof.
  intros Ha Hb. unfold calculate_comprehensive_score.
  destruct (add_attribute_rankings F64.zero d user_data) as [t |]; [| reflexivity].
  cbn [bind]. rewrite (caloric_alignment_ignores_value t d a b Ha Hb). reflexivity.
Qed.

Lemma score_zero_calorie_target (d : Dish) (user_data : User) (tp : option spec_float) :
  calculate_comprehensive_score d user_data (Some 0) tp
  = calculate_comprehensive_score d user_data None tp.
Proof.
  unfold calculate_comprehensive_score.
  destruct (add_attribute_rankings F64.zero d user_data) as [t |]; [| reflexivity].
  cbn [bind]. rewrite caloric_alignment_zero_target. reflexivity.
Qed.

(** X12. The ranking depends on the calorie target only through its
    truth value: two non-zero targets give the same result, and the
    target 0 behaves as no target. *)
Theorem ranking_ignores_calorie_value
        (rnd : nat) (dishes : list Dish) (user_data : User) (meal : string)
        (a b : Z) (tp : option spec_float) (top_n : nat) :
  (a <> 0 -> b <> 0 ->
   get_best_dishes_by_meal_type dishes user_data meal (Some a) tp top_n
   = get_best_dishes_by_meal_type dishes user_data meal (Some b) tp top_n
   /\ get_optimal_dish rnd dishes user_data meal (Some a) tp top_n
      = get_optimal_dish rnd dishes user_data meal (Some b) tp top_n)
  /\ get_best_dishes_by_meal_type dishes user_data meal (Some 0) tp top_n
     = get_best_dishes_by_meal_type dishes user_data meal None tp top_n.
Proof.
  split.
  - intros Ha Hb.
    assert (E : get_best_dishes_by_meal_type dishes user_data meal (Some a) tp top_n
                = get_best_dishes_by_meal_type dishes user_data meal (Some b) tp top_n).
    { unfold get_best_dishes_by_meal_type.
      destruct (filter _ dishes) as [| m ms]; [reflexivity |].
      destruct (filter_dishes_by_constraints (m :: ms) user_data) as [| f fs];
        [reflexivity |].
      rewrite (score_all_ext (f :: fs) user_data (Some a) (Some b) tp); [reflexivity |].
      intros d. apply score_ignores_calorie_value; assumption. }
    split; [exact E |]. unfold get_optimal_dish. rewrite E. reflexivity.
  - unfold get_best_dishes_by_meal_type.
    destruct (filter _ dishes) as [| m ms]; [reflexivity |].
    destruct (filter_dishes_by_constraints (m :: ms) user_data) as [| f fs];
      [reflexivity |].
    rewrite (score_all_ext (f :: fs) user_data (Some 0) None tp); [reflexivity |].
    intros d. apply score_zero_calorie_target.
Qed.

(** X13. A dish that matches no preference, has no rated calorie density,
    no protein target, a dietary compatibility of 0, no allergy conflict, no
    timing match and no shared persona tag scores exactly 0.0. *)
Theorem unmatched_dish_scores_zero
        (dish : Dish) (user_data : User) (tc : option Z) (tp : option spec_float) :
  attribute_score (get (attribute_rankings dish) [])
                  (normalize_user_preferences user_data) = 0 ->
  (forall table,
      lookup "caloric_density" (get (attribute_rankings dish) []) = Some table ->
      _calculate_caloric_score dish table = 0) ->
  (tp = None \/ exists t, tp = Some t /\ F64.eqb t F64.zero = true) ->
  _calculate_dietary_compatibility dish user_data = 0 ->
  allergy_conflicts dish user_data = [] ->
  Str.to_set (timing_matches (get (preferred_meal_times user_data) [])
                             (get (time_of_day_suitability dish) [])) = [] ->
  Str.inter (Str.to_set (get (persona_tags user_data) []))
            (Str.to_set (get (dish_persona_tags dish) [])) = [] ->
  calculate_comprehensive_score dish user_data tc tp = Ok F64.zero.
Proof.
  intros Hattr Hcal Htp Hdiet Hall Htime Hpers.
  unfold calculate_comprehensive_score.
  assert (E1 : add_attribute_rankings F64.zero dish user_data = Ok F64.zero).
  { unfold add_attribute_rankings. rewrite Hattr. reflexivity. }
  rewrite E1. cbn [bind].
  assert (E2 : add_caloric_alignment F64.zero dish tc = Ok F64.zero).
  { unfold add_caloric_alignment. destruct tc as [c |]; [| reflexivity].
    destruct (lookup "caloric_density" (get (attribute_rankings dish) []))
      as [table |] eqn:El; [| reflexivity].
    destruct (c =? 0); [reflexivity |]. rewrite (Hcal table eq_refl). reflexivity. }
  rewrite E2. cbn [bind].
  assert (E3 : add_protein_alignment F64.zero dish tp = Ok F64.zero).
  { unfold add_protein_alignment. destruct Htp as [-> | [t [-> Ht]]]; [reflexivity |].
    rewrite Ht. reflexivity. }
  rewrite E3. cbn [bind].
  assert (E4 : add_dietary_match F64.zero dish user_data = Ok F64.zero).
  { unfold add_dietary_match. rewrite Hdiet. reflexivity. }
  rewrite E4. cbn [bind].
  assert (E5 : add_allergy_risk F64.zero dish user_data = Ok F64.zero).
  { unfold add_allergy_risk, _calculate_allergy_risk. rewrite Hall. reflexivity. }
  rewrite E5. cbn [bind].
  assert (E6 : add_meal_timing F64.zero dish user_data = Ok F64.zero).
  { unfold add_meal_timing, _calculate_meal_timing_score.
    destruct (get (preferred_meal_times user_data) []) as [| u us]; [reflexivity |].
    destruct (get (time_of_day_suitability dish) []) as [| d ds]; [reflexivity |].
    rewrite Htime. reflexivity. }
  rewrite E6. cbn [bind].
  unfold add_persona_bonus, _calculate_persona_match.
  destruct (Str.to_set (get (persona_tags user_data) [])) as [| p ps]; [reflexivity |].
  destruct (Str.to_set (get (dish_persona_tags dish) [])) as [| q qs]; [reflexivity |].
  rewrite Hpers. reflexivity.
Qed.

(** ** The sign of the slots *)

Lemma nonneg_from_spec (n : nat) :
  forall T0 T,
    nonneg_from n T0 = true -> T0 <= T < T0 + Z.of_nat n -> T <> 19 ->
    slots_nonnegb (split_calories (VInt T) "3 meals + 2 snacks") = true.
Proof.
  induction n as [| k IH]; intros T0 T H Hr Hn; [lia |].
  cbn [nonneg_from] in H. apply andb_true_iff in H. destruct H as [H1 H2].
  destruct (Z.eq_dec T T0) as [-> | Hne].
  - apply orb_true_iff in H1. destruct H1 as [H1 | H1]; [| exact H1].
    apply Z.eqb_eq in H1. contradiction.
  - apply (IH (T0 + 1) T H2); lia.
Qed.

(** X14. For every integer total below 2^45 other than 19, the five-slot
    split returns only non-negative slots, with breakfast equal to dinner
    and at most lunch. *)
Theorem only_19_gives_a_negative_slot (T : Z) :
  0 < T < 2 ^ 45 -> T <> 19 ->
  exists b l s,
    split_calories (VInt T) "3 meals + 2 snacks" = Ok (slots5 b l b s s)
    /\ 0 <= b <= l /\ 0 <= s.
Proof.
  intros HT Hn.
  destruct (three_meal_values T HT) as [b [l [Eb [El [Ed [Bb Bl]]]]]].
  destruct (snack_cal_bound (T - (b * 10 + l * 10 + b * 10))) as [k [Ek Bk]].
  { change (2 ^ 45) with 35184372088832 in *. lia. }
  assert (Es : split_calories (VInt T) "3 meals + 2 snacks"
               = Ok (slots5 (b * 10) (l * 10) (b * 10) (k * 10) (k * 10))).
  { unfold split_calories. cbn [as_number F64.num_le_zero].
    replace (T <=? 0) with false by (symmetry; apply Z.leb_gt; lia).
    change (negb (is_recognized "3 meals + 2 snacks")) with false. cbv iota.
    rewrite Eb, El, Ed. cbn [bind].
    change ("3 meals + 2 snacks" =? "3 meals + 2 snacks")%string with true. cbv iota.
    cbn [F64.num_sub_int bind]. rewrite Ek. reflexivity. }
  exists (b * 10), (l * 10), (k * 10). split; [exact Es |].
  split; [lia |].
  destruct (Z_lt_le_dec T 41) as [Hs | Hl]; [| lia].
  pose proof (nonneg_from_spec 40 1 T ltac:(vm_compute; reflexivity) ltac:(lia) Hn) as H.
  rewrite Es in H. cbn [slots_nonnegb slots5 forallb snd] in H.
  rewrite !andb_true_iff in H. destruct H as [_ [_ [_ [H _]]]].
  apply Z.leb_le in H. exact H.
Qed.

(** ** The daily protein need *)

Lemma one_normal : normal (F64.of_Z 1) false 4503599627370496 (-52).
Proof. split; [reflexivity | simpl; lia]. Qed.

Lemma digits_shift_52 (m : positive) :
  2 ^ 52 <= Zpos m < 2 ^ 53 -> Zdigits2 (Zpos m * 2 ^ 52) = 105.
Proof.
  intros B. apply Zdigits2_unique; [lia |].
  change (2 ^ (105 - 1)) with (2 ^ 52 * 2 ^ 52). change (2 ^ 105) with (2 ^ 53 * 2 ^ 52).
  nia.
Qed.

Lemma mul_one_r (x : spec_float) (s : bool) (m : positive) (e : Z) :
  normal x s m e -> -1000 <= e <= 900 -> F64.mul x (F64.of_Z 1) = x.
Proof.
  intros Nx He.
  destruct (mul_normal x _ s false m _ e (-52) Nx one_normal ltac:(lia))
    as [m' [j [[E _] [_ [_ Ex]]]]].
  change (Zpos 4503599627370496) with (2 ^ 52) in Ex.
  rewrite (digits_shift_52 m (proj2 Nx)) in Ex.
  destruct (Ex (Zpos m) eq_refl) as [Em Ej].
  rewrite E, xorb_false_r. subst j. rewrite (proj1 Nx).
  f_equal; [congruence | lia].
Qed.

Lemma mul_one_l (x : spec_float) (s : bool) (m : positive) (e : Z) :
  normal x s m e -> -1000 <= e <= 900 -> F64.mul (F64.of_Z 1) x = x.
Proof.
  intros Nx He.
  destruct (mul_normal _ x false s _ m (-52) e one_normal Nx ltac:(lia))
    as [m' [j [[E _] [_ [_ Ex]]]]].
  change (Zpos 4503599627370496) with (2 ^ 52) in Ex.
  replace (2 ^ 52 * Zpos m) with (Zpos m * 2 ^ 52) in Ex by ring.
  rewrite (digits_shift_52 m (proj2 Nx)) in Ex.
  destruct (Ex (Zpos m) eq_refl) as [Em Ej].
  rewrite E. cbn [xorb]. subst j. rewrite (proj1 Nx).
  f_equal; [congruence | lia].
Qed.

(** X15. With the goal ["maintenance"] or a goal the table does not list,
    and the lifestyle ["sedentary"] or one the table does not list, the
    daily protein need is the weight itself: both factors are 1.0. *)
Theorem protein_needs_equal_weight
        (user_data : User) (s : bool) (m : positive) (e : Z) :
  normal (get (weight_kg user_data) (F64.of_Z 70)) s m e -> -1000 <= e <= 900 ->
  protein_goal_key user_data = "maintenance"%string
  \/ lookup (protein_goal_key user_data) protein_requirements = None ->
  lifestyle_key user_data = "sedentary"%string
  \/ lookup (lifestyle_key user_data) activity_multipliers = None ->
  calculate_user_protein_needs user_data = get (weight_kg user_data) (F64.of_Z 70).
Proof.
  intros Nw He Hg Hl. unfold calculate_user_protein_needs.
  fold (protein_goal_key user_data). fold (lifestyle_key user_data).
  assert (Eg : get (lookup (protein_goal_key user_data) protein_requirements) (F64.of_Z 1)
               = F64.of_Z 1).
  { destruct Hg as [-> | ->]; reflexivity. }
  assert (El : get (lookup (lifestyle_key user_data) activity_multipliers) (F64.of_Z 1)
               = F64.of_Z 1).
  { destruct Hl as [-> | ->]; reflexivity. }
  rewrite Eg, El.
  rewrite (mul_one_l _ s m e Nw He). apply (mul_one_r _ s m e Nw He).
Qed.

Lemma replace_undone (s : string) :
  Str.replace_char "_" " " (Str.replace_char " " "_" s) = Str.replace_char "_" " " s.
Proof.
  induction s as [| c s IH]; [reflexivity |].
  cbn [Str.replace_char]. rewrite IH. f_equal.
  destruct (Ascii.eqb_spec c " ") as [-> | N1]; [reflexivity |].
  reflexivity.
Qed.

(** X16. The daily protein need does not tell apart goals that differ
    only in letter case and in spaces against underscores. *)
Theorem protein_needs_goal_spelling (user_data : User) (g1 g2 : string) :
  Str.replace_char "_" " " (Str.lower g1) = Str.replace_char "_" " " (Str.lower g2) ->
  calculate_user_protein_needs (with_goal user_data (Some g1))
  = calculate_user_protein_needs (with_goal user_data (Some g2)).
Proof.
  intros H. unfold calculate_user_protein_needs.
  cbn [with_goal primary_goal weight_kg lifestyle_type get].
  rewrite !replace_undone, H. reflexivity.
Qed.

(** ** The complete meal plan *)

Lemma trunc_normal (f : spec_float) (m : positive) (e : Z) :
  normal f false m e -> e < 0 ->
  exists a,
    F64.trunc f = Ok a
    /\ a * 2 ^ (- e) <= Zpos m < (a + 1) * 2 ^ (- e).
Proof.
  intros [-> _] He. unfold F64.trunc.
  replace (0 <=? e) with false by (symmetry; apply Z.leb_gt; lia).
  exists (Zpos m / 2 ^ (- e)). split; [reflexivity |].
  assert (P : 0 < 2 ^ (- e)) by (apply pow2_pos; lia).
  pose proof (Z.div_mod (Zpos m) (2 ^ (- e)) ltac:(lia)) as E.
  pose proof (Z.mod_pos_bound (Zpos m) (2 ^ (- e)) P) as B.
  set (q := Zpos m / 2 ^ (- e)) in *. set (r := Zpos m mod 2 ^ (- e)) in *.
  set (K := 2 ^ (- e)) in *.
  replace ((q + 1) * K) with (K * q + K) by ring.
  replace (q * K) with (K * q) by ring. lia.
Qed.

(** [int(T * ratio)] returns for an integer total below 2^45 and a ratio
    with a 53-bit mantissa between 2^-4 and 1. *)
Lemma slot_target_returns (T : Z) (ratio : spec_float) (mc : positive) (ec : Z) :
  0 < T < 2 ^ 45 ->
  normal ratio false mc ec -> -56 <= ec <= -53 ->
  exists a m2 j2 m1 e1,
    slot_target_calories T ratio = Ok a
    /\ normal (F64.of_Z T) false m1 e1 /\ e1 <= -8 /\ -52 <= e1
    /\ Zpos m1 = T * 2 ^ (- e1)
    /\ 52 <= j2 <= 54
    /\ - 2 ^ j2 <= 2 * (Zpos m1 * Zpos mc) - 2 * Zpos m2 * 2 ^ j2 <= 2 ^ j2
    /\ a * 2 ^ (- (e1 + ec + j2)) <= Zpos m2 < (a + 1) * 2 ^ (- (e1 + ec + j2)).
Proof.
  intros HT Nr Hec.
  destruct T as [| p | p]; try lia.
  destruct (of_Z_pos_exact p ltac:(change (2 ^ 53) with (2 ^ 45 * 256); lia))
    as [m1 [e1 [N1 [Be1 Em1]]]].
  assert (PA : 0 < 2 ^ (- e1)) by (apply pow2_pos; lia).
  assert (He1 : e1 <= -8).
  { destruct (Z_le_gt_dec e1 (-8)) as [H | H]; [assumption |].
    assert (2 ^ (- e1) <= 2 ^ 7) by (apply pow2_le; lia).
    destruct N1 as [_ [B1 _]]. change (2 ^ 52) with (2 ^ 45 * 2 ^ 7) in B1. nia. }
  destruct (mul_normal _ ratio false false m1 mc e1 ec N1 Nr ltac:(lia))
    as [m2 [j2 [N2 [Bj2 [Bd2 _]]]]].
  cbn [xorb] in N2.
  destruct (trunc_normal _ m2 _ N2 ltac:(lia)) as [a [Et Ba]].
  exists a, m2, j2, m1, e1.
  split.
  - unfold slot_target_calories, F64.num_mul_float, F64.to_float, F64.of_int.
    pose proof (proj1 N1) as E1. rewrite E1 in Et |- *. cbn [bind]. exact Et.
  - repeat split; try lia; try apply N1; try apply Ba.
Qed.

Lemma tenth_normal :
  normal (F64.lit 10 100) false 7205759403792794 (-56).
Proof. split; [reflexivity | simpl; lia]. Qed.

(** [int(T * 0.10)] is the tenth of [T] rounded down, or one less. *)
Lemma tenth_bound (T : Z) :
  0 < T < 2 ^ 45 ->
  exists a,
    slot_target_calories T (F64.lit 10 100) = Ok a
    /\ T - 10 <= 10 * a <= T.
Proof.
  intros HT.
  destruct (slot_target_returns T _ _ _ HT tenth_normal ltac:(lia))
    as [a [m2 [j2 [m1 [e1 [Ea [N1 [He1 [He1' [Em1 [Bj [Bd Ba]]]]]]]]]]]].
  exists a. split; [exact Ea |].
  replace (- (e1 + -56 + j2)) with ((- e1 + 56) - j2) in Ba by lia.
  assert (EB : 2 ^ (- e1 + 56 - j2) * 2 ^ j2 = 2 ^ (- e1) * 2 ^ 56).
  { rewrite <- !Z.pow_add_r by lia. f_equal. lia. }
  assert (PJ : 0 < 2 ^ j2 <= 2 ^ 54).
  { split; [apply pow2_pos | apply pow2_le]; lia. }
  assert (HA : 2 ^ 8 <= 2 ^ (- e1)) by (apply pow2_le; lia).
  set (A := 2 ^ (- e1)) in *. set (J := 2 ^ j2) in *.
  set (K := 2 ^ (- e1 + 56 - j2)) in *.
  destruct Ba as [Ba1 Ba2].
  assert (H1 : a * K * J <= Zpos m2 * J)
    by (apply Z.mul_le_mono_nonneg_r; lia).
  assert (H2 : Zpos m2 * J < (a + 1) * K * J)
    by (apply Z.mul_lt_mono_pos_r; lia).
  replace (a * K * J) with (a * A * 2 ^ 56) in H1
    by (rewrite <- !Z.mul_assoc, EB; ring).
  replace ((a + 1) * K * J) with ((a * A + A) * 2 ^ 56) in H2
    by (rewrite <- !Z.mul_assoc, EB; ring).
  rewrite Em1 in Bd.
  replace (2 * (T * A * Zpos 7205759403792794))
    with (2 * 7205759403792794 * (T * A)) in Bd by ring.
  replace (2 * Zpos m2 * J) with (2 * (Zpos m2 * J)) in Bd by ring.
  assert (HX : T * A < 2 ^ 45 * A) by (apply Z.mul_lt_mono_pos_r; lia).
  assert (HX0 : 0 < T * A) by (apply Z.mul_pos_pos; lia).
  set (X := T * A) in *. set (Y := a * A) in *. set (M := Zpos m2 * J) in *.
  change (2 ^ 56) with 72057594037927936 in *.
  change (2 ^ 54) with 18014398509481984 in *.
  change (2 ^ 45) with 35184372088832 in *.
  change (2 ^ 8) with 256 in *.
  assert (U : 10 * Y - X < A) by lia.
  assert (L : X - 10 * Y - 10 * A < A) by lia.
  assert (EU : (10 * a - T) * A = 10 * Y - X) by (unfold X, Y; ring).
  assert (EL : (T - 10 * a - 10) * A = X - 10 * Y - 10 * A) by (unfold X, Y; ring).
  split.
  - destruct (Z_le_gt_dec (T - 10) (10 * a)) as [H | H]; [assumption |].
    exfalso. assert (1 * A <= (T - 10 * a - 10) * A)
      by (apply Z.mul_le_mono_nonneg_r; lia). lia.
  - destruct (Z_le_gt_dec (10 * a) T) as [H | H]; [assumption |].
    exfalso. assert (1 * A <= (10 * a - T) * A)
      by (apply Z.mul_le_mono_nonneg_r; lia). lia.
Qed.

Lemma snack_2_threshold (T a : Z) :
  0 < T < 2 ^ 45 ->
  slot_target_calories T (F64.lit 10 100) = Ok a ->
  (100 <? a) = (1010 <=? T).
Proof.
  intros HT Ha. destruct (tenth_bound T HT) as [a' [Ea' B]].
  rewrite Ha in Ea'. inversion Ea'; subst a'.
  destruct (Z.eq_dec T 1010) as [-> | Hne].
  - vm_compute in Ha. inversion Ha. reflexivity.
  - destruct (Z.ltb_spec 100 a), (Z.leb_spec 1010 T); try reflexivity; lia.
Qed.

Lemma meal_ratio_returns (T : Z) (ratio : spec_float) :
  0 < T < 2 ^ 45 ->
  In ratio [F64.lit 25 100; F64.lit 35 100; F64.lit 30 100; F64.lit 10 100] ->
  exists a, slot_target_calories T ratio = Ok a.
Proof.
  intros HT Hr.
  assert (N : exists mc ec, normal ratio false mc ec /\ -56 <= ec <= -53).
  { destruct Hr as [<- | [<- | [<- | [<- | []]]]].
    - exists 4503599627370496%positive, (-54).
      split; [split; [reflexivity | simpl; lia] | lia].
    - exists 6305039478318694%positive, (-54).
      split; [split; [reflexivity | simpl; lia] | lia].
    - exists 5404319552844595%positive, (-54).
      split; [split; [reflexivity | simpl; lia] | lia].
    - exists 7205759403792794%positive, (-56).
      split; [split; [reflexivity | simpl; lia] | lia]. }
  destruct N as [mc [ec [N Hec]]].
  destruct (slot_target_returns T ratio mc ec HT N Hec) as [a [_ [_ [_ [_ [Ea _]]]]]].
  eauto.
Qed.

(** What a returned plan is made of: the four or five calls of
    [get_optimal_dish], in order. *)
Lemma complete_plan_inversion (draw : nat -> nat) (dishes : list Dish)
      (user_data : User) (T : Z) (plan : meal_plan_t) :
  generate_complete_meal_plan draw dishes user_data T = Ok plan ->
  let daily := calculate_user_protein_needs user_data in
  exists tb tl td ts b l d s1,
    slot_target_calories T (F64.lit 25 100) = Ok tb
    /\ get_optimal_dish (draw 0%nat) dishes user_data "breakfast" (Some tb)
         (Some (calculate_meal_protein_target daily "breakfast")) 3 = Ok b
    /\ slot_target_calories T (F64.lit 35 100) = Ok tl
    /\ get_optimal_dish (draw 1%nat) dishes user_data "lunch" (Some tl)
         (Some (calculate_meal_protein_target daily "lunch")) 3 = Ok l
    /\ slot_target_calories T (F64.lit 30 100) = Ok td
    /\ get_optimal_dish (draw 2%nat) dishes user_data "dinner" (Some td)
         (Some (calculate_meal_protein_target daily "dinner")) 3 = Ok d
    /\ slot_target_calories T (F64.lit 10 100) = Ok ts
    /\ get_optimal_dish (draw 3%nat) dishes user_data "snack"
         (Some (if 100 <? ts then ts / 2 else ts))
         (Some (calculate_meal_protein_target daily "snack")) 3 = Ok s1
    /\ (((100 <? ts) = false
         /\ plan = [("breakfast", b); ("lunch", l); ("dinner", d);
                    ("snack_1", s1)]%string)
        \/ ((100 <? ts) = true
            /\ exists s2,
                get_optimal_dish (draw 4%nat) dishes user_data "snack"
                  (Some (ts / 2))
                  (Some (calculate_meal_protein_target daily "snack")) 3 = Ok s2
                /\ plan = [("breakfast", b); ("lunch", l); ("dinner", d);
                           ("snack_1", s1); ("snack_2", s2)]%string)).
Proof.
  unfold generate_complete_meal_plan, calorie_distribution.
  cbn [plan_loop plan_step String.eqb Ascii.eqb Bool.eqb].
  change (S754_finite false 4503599627370496 (-54)) with (F64.lit 25 100).
  change (S754_finite false 6305039478318694 (-54)) with (F64.lit 35 100).
  change (S754_finite false 5404319552844595 (-54)) with (F64.lit 30 100).
  change (S754_finite false 7205759403792794 (-56)) with (F64.lit 10 100).
  set (daily := calculate_user_protein_needs user_data).
  intros H. cbv zeta.
  destruct (slot_target_calories T (F64.lit 25 100)) as [tb |]; [| discriminate].
  cbn [bind app plan_step String.eqb Ascii.eqb Bool.eqb] in H.
  destruct (get_optimal_dish (draw 0%nat) dishes user_data "breakfast" _ _ 3)
    as [b |] eqn:Eb; [| discriminate].
  cbn [bind app plan_step String.eqb Ascii.eqb Bool.eqb] in H.
  destruct (slot_target_calories T (F64.lit 35 100)) as [tl |]; [| discriminate].
  cbn [bind app plan_step String.eqb Ascii.eqb Bool.eqb] in H.
  destruct (get_optimal_dish (draw 1%nat) dishes user_data "lunch" _ _ 3)
    as [l |] eqn:El; [| discriminate].
  cbn [bind app plan_step String.eqb Ascii.eqb Bool.eqb] in H.
  destruct (slot_target_calories T (F64.lit 30 100)) as [td |]; [| discriminate].
  cbn [bind app plan_step String.eqb Ascii.eqb Bool.eqb] in H.
  destruct (get_optimal_dish (draw 2%nat) dishes user_data "dinner" _ _ 3)
    as [d |] eqn:Ed; [| discriminate].
  cbn [bind app plan_step String.eqb Ascii.eqb Bool.eqb] in H.
  destruct (slot_target_calories T (F64.lit 10 100)) as [ts |]; [| discriminate].
  cbn [bind app plan_step String.eqb Ascii.eqb Bool.eqb] in H.
  destruct (get_optimal_dish (draw 3%nat) dishes user_data "snack" _ _ 3)
    as [s1 |] eqn:Es1; [| discriminate].
  cbn [bind app plan_step String.eqb Ascii.eqb Bool.eqb] in H.
  exists tb, tl, td, ts, b, l, d, s1.
  repeat (split; [first [reflexivity | assumption] |]).
  destruct (100 <? ts) eqn:Ets.
  - right. split; [reflexivity |].
    destruct (get_optimal_dish (draw 4%nat) dishes user_data "snack" _ _ 3)
      as [s2 |] eqn:Es2; [| discriminate].
    cbn [bind app fst] in H. exists s2. split; [reflexivity |].
    inversion H. reflexivity.
  - left. split; [reflexivity |]. cbn [bind fst] in H. inversion H. reflexivity.
Qed.

(** X17. The keys of a returned plan, in insertion order, are the three
    meals and [snack_1], followed by [snack_2] exactly when the daily
    target is at least 1010. *)
Theorem complete_plan_slots (draw : nat -> nat) (dishes : list Dish)
        (user_data : User) (T : Z) (plan : meal_plan_t) :
  0 < T < 2 ^ 45 ->
  generate_complete_meal_plan draw dishes user_data T = Ok plan ->
  map fst plan = plan_slots T.
Proof.
  intros HT H. apply complete_plan_inversion in H. cbv zeta in H.
  destruct H as [tb [tl [td [ts [b [l [d [s1 [_ [_ [_ [_ [_ [_ [Ets [_ H]]]]]]]]]]]]]]]].
  pose proof (snack_2_threshold T ts HT Ets) as Hth.
  unfold plan_slots.
  destruct H as [[Hlt ->] | [Hlt [s2 [_ ->]]]]; rewrite <- Hth, Hlt; reflexivity.
Qed.

(** X18. With no dish at all the plan is still returned, with [None] in
    every slot. *)
Theorem complete_plan_of_empty_catalog (draw : nat -> nat) (user_data : User) (T : Z) :
  0 < T < 2 ^ 45 ->
  generate_complete_meal_plan draw [] user_data T
  = Ok (map (fun slot => (slot, None)) (plan_slots T)).
Proof.
  intros HT.
  destruct (meal_ratio_returns T (F64.lit 25 100) HT ltac:(cbn; tauto)) as [tb Eb].
  destruct (meal_ratio_returns T (F64.lit 35 100) HT ltac:(cbn; tauto)) as [tl El].
  destruct (meal_ratio_returns T (F64.lit 30 100) HT ltac:(cbn; tauto)) as [td Ed].
  destruct (meal_ratio_returns T (F64.lit 10 100) HT ltac:(cbn; tauto)) as [ts Es].
  pose proof (snack_2_threshold T ts HT Es) as Hth.
  unfold generate_complete_meal_plan, calorie_distribution, plan_slots.
  cbn [plan_loop plan_step String.eqb Ascii.eqb Bool.eqb].
  change (S754_finite false 4503599627370496 (-54)) with (F64.lit 25 100).
  change (S754_finite false 6305039478318694 (-54)) with (F64.lit 35 100).
  change (S754_finite false 5404319552844595 (-54)) with (F64.lit 30 100).
  change (S754_finite false 7205759403792794 (-56)) with (F64.lit 10 100).
  rewrite Eb. cbn [bind app plan_step String.eqb Ascii.eqb Bool.eqb
                     get_optimal_dish get_best_dishes_by_meal_type filter].
  rewrite El. cbn [bind app plan_step String.eqb Ascii.eqb Bool.eqb
                     get_optimal_dish get_best_dishes_by_meal_type filter].
  rewrite Ed. cbn [bind app plan_step String.eqb Ascii.eqb Bool.eqb
                     get_optimal_dish get_best_dishes_by_meal_type filter].
  rewrite Es. rewrite <- Hth.
  cbn [bind app plan_step String.eqb Ascii.eqb Bool.eqb
         get_optimal_dish get_best_dishes_by_meal_type filter].
  destruct (100 <? ts);
    cbn [bind app plan_step String.eqb Ascii.eqb Bool.eqb
           get_optimal_dish get_best_dishes_by_meal_type filter fst map];
    reflexivity.
Qed.

(** X19. Whatever dish a returned plan puts in a slot is from the catalog,
    free of the three hard conflicts for this user, and of the slot's meal
    type (both snack slots draw from ["snack"]). *)
Theorem complete_plan_is_safe (draw : nat -> nat) (dishes : list Dish)
        (user_data : User) (T : Z) (plan : meal_plan_t) :
  generate_complete_meal_plan draw dishes user_data T = Ok plan ->
  forall slot dish,
    In (slot, Some dish) plan ->
    acceptable dishes user_data dish
    /\ has_meal_type (slot_meal_type slot) dish.
Proof.
  intros H slot dish Hin. apply complete_plan_inversion in H. cbv zeta in H.
  destruct H as [tb [tl [td [ts [b [l [d [s1
    [_ [Eb [_ [El [_ [Ed [_ [Es1 H]]]]]]]]]]]]]]]].
  assert (Hcases :
    (slot, Some dish) = ("breakfast"%string, b)
    \/ (slot, Some dish) = ("lunch"%string, l)
    \/ (slot, Some dish) = ("dinner"%string, d)
    \/ (slot, Some dish) = ("snack_1"%string, s1)
    \/ exists s2,
         get_optimal_dish (draw 4%nat) dishes user_data "snack" (Some (ts / 2))
           (Some (calculate_meal_protein_target
                    (calculate_user_protein_needs user_data) "snack")) 3 = Ok s2
         /\ (slot, Some dish) = ("snack_2"%string, s2)).
  { destruct H as [[_ ->] | [_ [s2 [Es2 ->]]]]; cbn [In] in Hin.
    - destruct Hin as [E | [E | [E | [E | []]]]]; symmetry in E; tauto.
    - destruct Hin as [E | [E | [E | [E | [E | []]]]]]; symmetry in E;
        try tauto.
      right. right. right. right. exists s2. tauto. }
  destruct Hcases as [E | [E | [E | [E | [s2 [Es2 E]]]]]];
    inversion E; subst; clear E;
    match goal with
    | Hd : get_optimal_dish _ _ _ ?m _ _ _ = Ok (Some dish) |- _ =>
        exact (optimal_dish_sound _ _ _ _ _ _ _ _ Hd)
    end.
Qed.

(** ** The BMI category *)

Lemma ltb_trans (f g h : spec_float) :
  F64.ltb f g = true -> F64.ltb g h = true -> F64.ltb f h = true.
Proof.
  intros H1 H2.
  assert (Hf : f <> S754_nan) by (intros ->; discriminate).
  assert (Hg : g <> S754_nan) by (intros ->; discriminate).
  assert (Hh : h <> S754_nan) by (intros ->; destruct g; discriminate).
  apply (ltb_key f g Hf Hg) in H1. apply (ltb_key g h Hg Hh) in H2.
  apply (ltb_key f h Hf Hh). unfold lex_lt in *.
  destruct (order_key f) as [[a1 b1] c1], (order_key g) as [[a2 b2] c2],
    (order_key h) as [[a3 b3] c3].
  lia.
Qed.

(** X20. [categorize_bmi] is monotone: a lower BMI never gets a higher
    category. *)
Theorem bmi_category_is_monotone (a b : spec_float) :
  F64.ltb a b = true ->
  category_rank (Api.categorize_bmi a) <= category_rank (Api.categorize_bmi b).
Proof.
  intros H. unfold Api.categorize_bmi.
  pose proof (fun c => ltb_trans a b c H) as T.
  destruct (F64.ltb b Api.c18_5) eqn:B1.
  { rewrite (T _ B1). cbn. lia. }
  destruct (F64.ltb b Api.c25) eqn:B2.
  { rewrite (T _ B2). destruct (F64.ltb a Api.c18_5); cbn; lia. }
  destruct (F64.ltb b Api.c30) eqn:B3.
  { rewrite (T _ B3).
    destruct (F64.ltb a Api.c18_5); [cbn; lia |].
    destruct (F64.ltb a Api.c25); cbn; lia. }
  destruct (F64.ltb a Api.c18_5); [cbn; lia |].
  destruct (F64.ltb a Api.c25); [cbn; lia |].
  destruct (F64.ltb a Api.c30); cbn; lia.
Qed.

(** ** Further instances on sample data *)

Section MoreWitnesses.

Lemma filter_excludes_non_vegetarian_witness :
  Str.lower "vegetarian" <> "non-vegetarian"%string.
Proof.
  apply (filter_excludes_non_vegetarian sample_catalog sample_user dish_plain
           "vegetarian").
  - vm_compute. left. reflexivity.
  - right. reflexivity.
  - left. reflexivity.
Defined.

Lemma filter_keeps_region_witness :
  Str.lower (get (region dish_plain) EmptyString)
  = Str.lower (get (Region sample_user_south) EmptyString).
Proof.
  apply (filter_keeps_region sample_catalog sample_user_south dish_plain).
  - vm_compute. left. reflexivity.
  - intros E. vm_compute in E. discriminate E.
Defined.

Lemma hard_dietary_conflict_witness :
  _calculate_dietary_compatibility dish_meaty sample_user <= -2.
Proof.
  apply (hard_dietary_conflict_is_penalised dish_meaty sample_user).
  vm_compute. reflexivity.
Defined.

Lemma sample_scored_numbers : Forall score_is_number sample_scored.
Proof.
  repeat (constructor; [intros E; vm_compute in E; discriminate E |]). constructor.
Defined.

Lemma sort_desc_ranks_witness :
  Permutation (sort_desc sample_scored) sample_scored
  /\ StronglySorted not_below (sort_desc sample_scored).
Proof.
  destruct (sort_desc_ranks sample_scored sample_scored_numbers) as [Hp [Hs _]].
  split; [exact Hp | exact Hs].
Defined.

Lemma top_n_are_best_witness :
  F64.ltb (F64.of_Z 2) (F64.of_Z 1) = false.
Proof.
  apply (top_n_are_best sample_scored 1 (dish_plain, F64.of_Z 2) (dish_snack, F64.of_Z 1)
           sample_scored_numbers).
  - vm_compute. left. reflexivity.
  - vm_compute. right. left. reflexivity.
Defined.

Lemma best_dishes_are_acceptable_witness :
  acceptable sample_catalog sample_user dish_plain
  /\ has_meal_type "breakfast" dish_plain.
Proof.
  assert (E : get_best_dishes_by_meal_type sample_catalog sample_user "breakfast"
                None None 3 = Ok [dish_plain]).
  { vm_compute. reflexivity. }
  destruct (best_dishes_are_acceptable sample_catalog sample_user "breakfast"
              None None 3 [dish_plain] E) as [_ [_ H]].
  apply H. left. reflexivity.
Defined.

Lemma optimal_dish_is_acceptable_witness :
  acceptable sample_catalog sample_user dish_snack
  /\ has_meal_type "snack" dish_snack.
Proof.
  apply (optimal_dish_is_acceptable 0 sample_catalog sample_user "snack" None None 3).
  vm_compute. reflexivity.
Defined.

Lemma best_dish_is_acceptable_witness :
  acceptable sample_catalog sample_user dish_plain.
Proof.
  apply (best_dish_is_acceptable 0 sample_catalog sample_user 3).
  vm_compute. reflexivity.
Defined.

Lemma candidates_give_a_dish_witness :
  exists d,
    get_optimal_dish 0 sample_catalog sample_user "breakfast" None None 3
    = Ok (Some d).
Proof.
  apply (candidates_give_a_dish 0 sample_catalog sample_user "breakfast" None None 3
           [(dish_plain, F64.lit 65 10)]).
  - intros E. vm_compute in E. discriminate E.
  - vm_compute. reflexivity.
  - lia.
Defined.

Lemma ranking_ignores_calorie_value_witness :
  get_best_dishes_by_meal_type sample_catalog sample_user "breakfast"
    (Some 300) None 3
  = get_best_dishes_by_meal_type sample_catalog sample_user "breakfast"
      (Some 900) None 3.
Proof.
  apply (proj1 (ranking_ignores_calorie_value 0 sample_catalog sample_user
                  "breakfast" 300 900 None 3)); lia.
Defined.

Lemma unmatched_dish_scores_zero_witness :
  calculate_comprehensive_score dish_meaty empty_user (Some 500) None = Ok F64.zero.
Proof.
  apply (unmatched_dish_scores_zero dish_meaty empty_user (Some 500) None).
  - reflexivity.
  - intros table E. vm_compute in E. discriminate E.
  - left. reflexivity.
  - vm_compute. reflexivity.
  - reflexivity.
  - reflexivity.
  - reflexivity.
Defined.

Lemma only_19_witness :
  exists b l s,
    split_calories (VInt 2000) "3 meals + 2 snacks" = Ok (slots5 b l b s s)
    /\ 0 <= b <= l /\ 0 <= s.
Proof.
  apply (only_19_gives_a_negative_slot 2000).
  - vm_compute. split; reflexivity.
  - lia.
Defined.

Lemma protein_needs_equal_weight_witness :
  calculate_user_protein_needs sample_user = F64.of_Z 70.
Proof.
  apply (protein_needs_equal_weight sample_user false 4925812092436480 (-46)).
  - split; [reflexivity | simpl; lia].
  - lia.
  - left. reflexivity.
  - left. reflexivity.
Defined.

Lemma protein_needs_goal_spelling_witness :
  calculate_user_protein_needs (with_goal sample_user (Some "Muscle Gain"%string))
  = calculate_user_protein_needs (with_goal sample_user (Some "muscle_gain"%string)).
Proof.
  apply (protein_needs_goal_spelling sample_user "Muscle Gain" "muscle_gain").
  reflexivity.
Defined.

Lemma sample_plan_returned :
  generate_complete_meal_plan first_draw sample_catalog sample_user 2000
  = Ok sample_plan.
Proof. vm_compute. reflexivity. Defined.

Lemma complete_plan_slots_witness :
  map fst sample_plan = plan_slots 2000.
Proof.
  apply (complete_plan_slots first_draw sample_catalog sample_user 2000 sample_plan).
  - vm_compute. split; reflexivity.
  - exact sample_plan_returned.
Defined.

Lemma complete_plan_of_empty_catalog_witness :
  generate_complete_meal_plan first_draw [] sample_user 1000
  = Ok (map (fun slot => (slot, None)) (plan_slots 1000)).
Proof.
  apply (complete_plan_of_empty_catalog first_draw sample_user 1000).
  vm_compute. split; reflexivity.
Defined.

Lemma complete_plan_is_safe_witness :
  acceptable sample_catalog sample_user dish_snack
  /\ has_meal_type (slot_meal_type "snack_2") dish_snack.
Proof.
  apply (complete_plan_is_safe first_draw sample_catalog sample_user 2000 sample_plan
           sample_plan_returned).
  unfold sample_plan. cbn [In]. do 4 right. left. reflexivity.
Defined.

Lemma bmi_category_witness :
  category_rank (Api.categorize_bmi (F64.of_Z 22))
  <= category_rank (Api.categorize_bmi (F64.of_Z 27)).
Proof.
  apply (bmi_category_is_monotone (F64.of_Z 22) (F64.of_Z 27)).
  vm_compute. reflexivity.
Defined.

End MoreWitnesses.
